(** * facebook_action: the Graph API client, embedded and verified

    A shallow embedding of [facebook_action/modules/facebook_api.py]
    (class [FacebookAPI]).  Decoded JSON is an inductive type of Python
    values, Python exceptions are an error monad, and the HTTP transport
    (the [requests] library), [mimetypes], [random] and the host's
    [file_interface] are an explicit environment: the n-th HTTP call of a
    run receives the n-th answer of the environment, and every call is
    appended to a log.  Calls to [logger.error] have no effect on results
    and are left out. *)

From Stdlib Require Import String Ascii List ZArith Bool Lia DecimalString.
From Stdlib Require Import PrimFloat.
Import ListNotations.

#[local] Set Warnings "-register-all".
#[local] Open Scope string_scope.

(** * Python values and exceptions *)

Module Py.

(** A decoded JSON document, as [json.loads] / [response.json()] builds it.
    A dict keeps its insertion order; lookup finds the first binding. *)
Inductive pyval : Type :=
| PNone
| PBool (b : bool)
| PInt (z : Z)
| PFloat (f : float)
| PStr (s : string)
| PList (l : list pyval)
| PDict (d : list (string * pyval)).

(** What [requests] exposes of an HTTP response. *)
Record response : Type := mkResponse {
  status_code : Z;
  error_message : string;   (* text of the HTTPError raise_for_status() builds *)
  content : string;         (* response.content, the raw body *)
  json : string + pyval;    (* response.json(): the decoded body, or the decoder's message *)
  content_type : option string;   (* response.headers.get("Content-Type") *)
  chunks : list string;     (* what iter_content() yields *)
  chunk_fault : option string     (* iter_content() raising after the chunks *)
}.

(** Exceptions, by the classes the handlers of the client tell apart.
    [Timeout] is a subclass of [RequestException]; every class is an
    [Exception]. *)
Inductive exn : Type :=
| KeyError (repr : string)
| IndexError (msg : string)
| TypeError (msg : string)
| AttributeError (msg : string)
| Timeout (msg : string)
| RequestException (msg : string) (resp : option response)
| OtherException (msg : string).

(** [str(e)] *)
Definition exn_str (e : exn) : string :=
  match e with
  | KeyError r => r
  | IndexError m | TypeError m | AttributeError m
  | Timeout m | RequestException m _ | OtherException m => m
  end.

Definition is_request_exception (e : exn) : bool :=
  match e with
  | Timeout _ | RequestException _ _ => true
  | _ => false
  end.

Inductive res (A : Type) : Type :=
| Ret (a : A)
| Raise (e : exn).

Arguments Ret {A} a.

Arguments Raise {A} e.

Definition rbind {A B} (m : res A) (k : A -> res B) : res B :=
  match m with
  | Ret a => k a
  | Raise e => Raise e
  end.

(** [try: m  except Exception as e: h e] *)
Definition rtry {A} (m : res A) (h : exn -> res A) : res A :=
  match m with
  | Ret a => Ret a
  | Raise e => h e
  end.

Definition type_name (v : pyval) : string :=
  match v with
  | PNone => "NoneType"
  | PBool _ => "bool"
  | PInt _ => "int"
  | PFloat _ => "float"
  | PStr _ => "str"
  | PList _ => "list"
  | PDict _ => "dict"
  end.

(** [repr] of a string key, as [KeyError] prints it. *)
Definition repr_str (k : string) : string := "'" ++ k ++ "'".

(** Truth value of a value ([bool(v)]). *)
Definition truthy (v : pyval) : bool :=
  match v with
  | PNone => false
  | PBool b => b
  | PInt z => negb (Z.eqb z 0)
  | PFloat f => negb (PrimFloat.eqb f 0%float)
  | PStr s => negb (String.eqb s "")
  | PList l => match l with [] => false | _ => true end
  | PDict d => match d with [] => false | _ => true end
  end.

(** [a or b] *)
Definition py_or (a b : pyval) : pyval := if truthy a then a else b.

(** [v is None] *)
Definition is_none (v : pyval) : bool :=
  match v with PNone => true | _ => false end.

(** [v == s] for a string [s]. *)
Definition eq_str (v : pyval) (s : string) : bool :=
  match v with PStr t => String.eqb t s | _ => false end.

Fixpoint lookup (k : string) (d : list (string * pyval)) : option pyval :=
  match d with
  | [] => None
  | (k', v) :: d' => if String.eqb k k' then Some v else lookup k d'
  end.

Definition has_key (k : string) (d : list (string * pyval)) : bool :=
  match lookup k d with Some _ => true | None => false end.

(** [d.get(k, default)] on a dict. *)
Definition dict_get (d : list (string * pyval)) (k : string) (default : pyval) : pyval :=
  match lookup k d with Some v => v | None => default end.

(** [v[k]] for a string [k]. *)
Definition getitem (v : pyval) (k : string) : res pyval :=
  match v with
  | PDict d =>
      match lookup k d with
      | Some x => Ret x
      | None => Raise (KeyError (repr_str k))
      end
  | PList _ => Raise (TypeError "list indices must be integers or slices, not str")
  | PStr _ => Raise (TypeError "string indices must be integers, not 'str'")
  | _ => Raise (TypeError ("'" ++ type_name v ++ "' object is not subscriptable"))
  end.

(** A string holds the UTF-8 encoding of its text; a byte [10xxxxxx]
    continues the character the bytes before it began. *)
Definition continuation (c : ascii) : bool :=
  match c with Ascii _ _ _ _ _ _ b6 b7 => b7 && negb b6 end.

(** The bytes that continue a character begun before [s], and the
    characters of the rest of [s]. *)
Fixpoint code_points (s : string) : string * list string :=
  match s with
  | EmptyString => (EmptyString, [])
  | String c s' =>
      let (pending, done) := code_points s' in
      if continuation c then (String c pending, done)
      else (EmptyString, String c pending :: done)
  end.

(** The characters of a string, each a string of length one in Python. *)
Definition chars (s : string) : list pyval :=
  let (pending, done) := code_points s in
  map PStr (match pending with EmptyString => done | _ => pending :: done end).

(** [v[0]] *)
Definition getitem0 (v : pyval) : res pyval :=
  match v with
  | PList l =>
      match l with
      | x :: _ => Ret x
      | [] => Raise (IndexError "list index out of range")
      end
  | PStr s =>
      match chars s with
      | c :: _ => Ret c
      | [] => Raise (IndexError "string index out of range")
      end
  | PDict _ => Raise (KeyError "0")   (* the keys of a decoded JSON object are strings *)
  | _ => Raise (TypeError ("'" ++ type_name v ++ "' object is not subscriptable"))
  end.

(** [k in v] for a string [k]: key of a dict, element of a list, substring
    of a string. *)
Definition contains (k : string) (v : pyval) : res bool :=
  match v with
  | PDict d => Ret (has_key k d)
  | PList l => Ret (existsb (fun x => eq_str x k) l)
  | PStr s => Ret (match String.index 0 k s with Some _ => true | None => false end)
  | _ => Raise (TypeError ("argument of type '" ++ type_name v ++ "' is not iterable"))
  end.

(** [v.get(k, default)]: only a dict has the method. *)
Definition get (v : pyval) (k : string) (default : pyval) : res pyval :=
  match v with
  | PDict d => Ret (dict_get d k default)
  | _ => Raise (AttributeError ("'" ++ type_name v ++ "' object has no attribute 'get'"))
  end.

(** The elements [list.extend(v)] appends. *)
Definition iterate (v : pyval) : res (list pyval) :=
  match v with
  | PList l => Ret l
  | PStr s => Ret (chars s)
  | PDict d => Ret (map (fun kv => PStr (fst kv)) d)
  | _ => Raise (TypeError ("'" ++ type_name v ++ "' object is not iterable"))
  end.

Definition opt_str (o : option string) : pyval :=
  match o with Some s => PStr s | None => PNone end.

(** [str(n)] of an int. *)
Definition str_of_int (z : Z) : string := NilZero.string_of_int (Z.to_int z).

Definition upper_ascii (c : ascii) : ascii :=
  let n := nat_of_ascii c in
  if (97 <=? n)%nat && (n <=? 122)%nat then ascii_of_nat (n - 32) else c.

(** [s.upper()] on ASCII text. *)
Fixpoint upper (s : string) : string :=
  match s with
  | EmptyString => EmptyString
  | String c s' => String (upper_ascii c) (upper s')
  end.

(** [s.split(";")[0]] *)
Fixpoint before_semicolon (s : string) : string :=
  match s with
  | EmptyString => EmptyString
  | String c s' =>
      if Ascii.eqb c ";"%char then EmptyString else String c (before_semicolon s')
  end.

End Py.

Import Py.

Declare Scope py_scope.
Delimit Scope py_scope with py.
Notation "x <- m ;; k" := (rbind m (fun x => k))
  (at level 61, m at next level, right associativity) : py_scope.

(** * The environment of a run and its effects *)

(** What an HTTP call comes back with: a response, or an exception of the
    transport. *)
Inductive transport : Type :=
| Responded (r : response)
| Failed (e : exn).

(** Everything outside the client.  [net n] answers the n-th HTTP call of
    the run (counted from 0), whatever the call is. *)
Record environment : Type := mkEnvironment {
  net : nat -> transport;
  guess_type : string -> option string;        (* mimetypes.guess_type(path)[0] *)
  guess_extension : string -> option string;   (* mimetypes.guess_extension(type) *)
  random_choices : nat -> string;              (* the n-th random 10-character name *)
  save_file : string -> string -> option exn;  (* file_interface.save_file; None: saved *)
  get_file_url : string -> res pyval           (* file_interface.get_file_url *)
}.

(** The three entry points of [requests] the client uses. *)
Inductive call : Type :=
| Request (method url : string) (params data json_body headers : pyval) (timeout : Z)
    (* requests.request(method, url, params, data, json, headers, timeout) *)
| Head (url : pyval)     (* requests.head(url, allow_redirects=True) *)
| Get (url : string).    (* requests.get(url, stream=True) *)

Record state : Type := mkState {
  sent : list call;                 (* every HTTP call so far, oldest first *)
  stored : list (string * string);  (* files saved through file_interface *)
  draws : nat                       (* random names drawn so far *)
}.

Definition M (A : Type) : Type := state -> res A * state.

Definition mret {A} (a : A) : M A := fun s => (Ret a, s).

Definition mraise {A} (e : exn) : M A := fun s => (Raise e, s).

Definition lift {A} (m : res A) : M A := fun s => (m, s).

Definition mbind {A B} (m : M A) (k : A -> M B) : M B :=
  fun s =>
    match m s with
    | (Ret a, s') => k a s'
    | (Raise e, s') => (Raise e, s')
    end.

(** [try: m  except ... as e: h e]; an exception raised by [h] itself is
    not caught. *)
Definition mtry {A} (m : M A) (h : exn -> M A) : M A :=
  fun s =>
    match m s with
    | (Ret a, s') => (Ret a, s')
    | (Raise e, s') => h e s'
    end.

Declare Scope eff_scope.
Delimit Scope eff_scope with eff.
Notation "x <- m ;; k" := (mbind m (fun x => k))
  (at level 61, m at next level, right associativity) : eff_scope.

(** * The client *)

Record config : Type := mkConfig {
  api_url : string;
  app_secret : string;
  app_id : string;
  page_id : string;
  access_token : string;
  verify_token : string;
  fields : option string;
  timeout : Z
}.

Module FacebookAPI.

Section Client.

Variable env : environment.
Variable self : config.

(** One HTTP call: logged, and answered by the environment. *)
Definition perform (c : call) : M response :=
  fun s =>
    let s' := mkState (sent s ++ [c]) (stored s) (draws s) in
    match net env (length (sent s)) with
    | Responded r => (Ret r, s')
    | Failed e => (Raise e, s')
    end.

Definition is_error_status (r : response) : bool :=
  (400 <=? status_code r)%Z && (status_code r <? 600)%Z.

(** [response.raise_for_status()] *)
Definition raise_for_status (r : response) : res unit :=
  if is_error_status r
  then Raise (RequestException (error_message r) (Some r))
  else Ret tt.

(** [response.json()] *)
Definition response_json (r : response) : res pyval :=
  match json r with
  | inr v => Ret v
  | inl msg => Raise (RequestException msg None)
  end.

(** [bool(response)] is [response.ok]. *)
Definition response_truthy (r : response) : bool := negb (is_error_status r).

Definition nonempty (s : string) : bool := negb (String.eqb s "").

(** [e.response.json() if e.response and e.response.content else None] *)
Definition error_details_of (resp : option response) : res pyval :=
  match resp with
  | Some r =>
      if response_truthy r && nonempty (content r) then response_json r else Ret PNone
  | None => Ret PNone
  end.

Definition timeout_envelope : pyval :=
  PDict [("error", PStr ("Timeout after " ++ str_of_int (timeout self) ++ " seconds"))].

Definition absolute_url (endpoint : string) : string :=
  if String.prefix "http://" endpoint || String.prefix "https://" endpoint
  then endpoint
  else api_url self ++ endpoint.

Definition send_rest_request (method endpoint : string)
    (params data headers json_body : pyval) : M pyval :=
  let url := absolute_url endpoint in
  mtry
    (response <- perform (Request (upper method) url params data json_body headers
                                  (timeout self)) ;;
     _ <- lift (raise_for_status response) ;;
     if nonempty (content response)
     then lift (response_json response)
     else mret (PDict []))%eff
    (fun e =>
       match e with
       | Timeout _ => mret timeout_envelope
       | RequestException _ resp =>
           (error_details <- lift (error_details_of resp) ;;
            mret (PDict [("error", PStr (exn_str e)); ("details", error_details)]))%eff
       | _ => mret (PDict [("error", PStr (exn_str e))])
       end).

Definition rejection : pyval :=
  PDict [("message", PStr "Invalid token or mode"); ("code", PInt 403)].

Definition parse_verification_request (request : pyval) : res pyval :=
  rtry
    (hub_mode <- get request "hub.mode" PNone ;;
     hub_verify_token <- get request "hub.verify_token" PNone ;;
     hub_challenge <- get request "hub.challenge" PNone ;;
     if eq_str hub_verify_token (verify_token self) && eq_str hub_mode "subscribe"
     then Ret (if is_none hub_challenge then PStr "" else hub_challenge)
     else Ret rejection)%py
    (fun e => Ret (PDict [("error", PStr (exn_str e))])).

Definition register_session (webhook_url : string) : M pyval :=
  let endpoint := app_id self ++ "/subscriptions" in
  let params := PDict [("access_token", PStr (app_id self ++ "|" ++ app_secret self))] in
  let data := PDict [("object", PStr "page");
                     ("callback_url", PStr webhook_url);
                     ("fields", opt_str (fields self));
                     ("verify_token", PStr (verify_token self));
                     ("include_values", PStr "true")] in
  send_rest_request "POST" endpoint params PNone PNone data.

Definition normalized (sender_name sender_id page_id message_type message attachments
    caption request parent_message_id : pyval) : pyval :=
  PDict [("sender_name", sender_name);
         ("sender_id", sender_id);
         ("page_id", page_id);
         ("message_type", message_type);
         ("message", message);
         ("attachments", attachments);
         ("caption", caption);
         ("data", request);
         ("parent_message_id", parent_message_id)].

Definition parse_inbound_message (request : pyval) : res pyval :=
  rtry
    (entries <- getitem request "entry" ;;
     entry <- getitem0 entries ;;
     page_id <- getitem entry "id" ;;
     let caption := PStr "" in
     let parent_message_id := PStr "" in
     has_changes <- contains "changes" entry ;;
     if has_changes then
       changes <- getitem entry "changes" ;;
       change0 <- getitem0 changes ;;
       change <- getitem change0 "value" ;;
       from <- getitem change "from" ;;
       sender_id <- getitem from "id" ;;
       from' <- getitem change "from" ;;
       sender_name <- getitem from' "name" ;;
       message_type <- getitem change "item" ;;
       msg <- get change "message" PNone ;;
       message <- (if truthy msg then Ret msg else get change "reaction_type" PNone) ;;
       Ret (normalized sender_name sender_id page_id message_type message (PList [])
                       caption request parent_message_id)
     else
       has_messaging <- contains "messaging" entry ;;
       if has_messaging then
         messagings <- getitem entry "messaging" ;;
         messaging <- getitem0 messagings ;;
         sender <- getitem messaging "sender" ;;
         sender_id <- getitem sender "id" ;;
         message0 <- getitem messaging "message" ;;
         message <- get message0 "text" PNone ;;
         message1 <- getitem messaging "message" ;;
         attachments <- get message1 "attachments" (PList []) ;;
         Ret (normalized (PStr "") sender_id page_id (PStr "message") message attachments
                         caption request parent_message_id)
       else
         Ret (normalized (PStr "") (PStr "") page_id (PStr "") (PStr "") (PList [])
                         caption request parent_message_id))%py
    (fun e => Ret (PDict [("ok", PBool false); ("error", PStr (exn_str e))])).

Definition json_headers : pyval := PDict [("Content-Type", PStr "application/json")].

Definition page_token : pyval := PStr (access_token self).

Definition send_text_message (recipient_id message : string) : M pyval :=
  let endpoint := page_id self ++ "/messages" in
  let headers := json_headers in
  let data := PDict [("recipient", PDict [("id", PStr recipient_id)]);
                     ("messaging_type", PStr "RESPONSE");
                     ("message", PDict [("text", PStr message)])] in
  let params := PDict [("access_token", page_token)] in
  send_rest_request "POST" endpoint params PNone headers data.

Definition send_media (recipient_id media_url media_type : string) : M pyval :=
  let endpoint := page_id self ++ "/messages" in
  let headers := json_headers in
  let data :=
    PDict [("recipient", PDict [("id", PStr recipient_id)]);
           ("messaging_type", PStr "RESPONSE");
           ("message",
            PDict [("attachment",
                    PDict [("type", PStr media_type);
                           ("payload", PDict [("url", PStr media_url);
                                              ("is_reusable", PBool true)])])])] in
  let params := PDict [("access_token", page_token)] in
  send_rest_request "POST" endpoint params PNone headers data.

Definition get_user_info (fields : string) : M pyval :=
  let endpoint := "me" in
  let params := PDict [("fields", PStr fields); ("access_token", page_token)] in
  send_rest_request "GET" endpoint params PNone PNone PNone.

(** [self.send_rest_request("GET", endpoint, params=params)] where
    [endpoint] is whatever the previous page gave as [paging.next]:
    [endpoint.startswith] exists on a string only. *)
Definition send_rest_request_to (endpoint params : pyval) : M pyval :=
  match endpoint with
  | PStr e => send_rest_request "GET" e params PNone PNone PNone
  | _ => mraise (AttributeError
                   ("'" ++ type_name endpoint ++ "' object has no attribute 'startswith'"))
  end.

(** The [while True] loop of [list_all_pages]; [None] when the fuel runs
    out before the loop ends. *)
Fixpoint list_all_pages_loop (fuel : nat) (endpoint params : pyval)
    (all_pages : list pyval) : M (option pyval) :=
  match fuel with
  | O => mret None
  | S fuel' =>
      (response <- send_rest_request_to endpoint params ;;
       has_error <- lift (contains "error" response) ;;
       if has_error then mret (Some (PList []))
       else
         data <- lift (get response "data" (PList [])) ;;
         items <- lift (iterate data) ;;
         let all_pages := (all_pages ++ items)%list in
         paging <- lift (get response "paging" (PDict [])) ;;
         next_page <- lift (get paging "next" PNone) ;;
         if negb (truthy next_page) then mret (Some (PList all_pages))
         else list_all_pages_loop fuel' next_page (PDict []) all_pages)%eff
  end.

Definition list_all_pages (fuel : nat) (limit : Z) : M (option pyval) :=
  mtry
    (let endpoint := PStr "me/accounts" in
     let params := PDict [("access_token", page_token); ("limit", PInt limit)] in
     list_all_pages_loop fuel endpoint params [])
    (fun e => mret (Some (PDict [("ok", PBool false); ("error", PStr (exn_str e))]))).

Definition get_page_details (fields : string) : M pyval :=
  let endpoint := page_id self in
  let params := PDict [("fields", PStr fields); ("access_token", page_token)] in
  send_rest_request "GET" endpoint params PNone PNone PNone.

Definition post_message_to_page (message : string) : M pyval :=
  let endpoint := page_id self ++ "/feed" in
  let headers := json_headers in
  let json_data := PDict [("message", PStr message)] in
  let params := PDict [("access_token", page_token)] in
  send_rest_request "POST" endpoint params PNone headers json_data.

Definition get_page_posts (limit : Z) : M pyval :=
  let endpoint := page_id self ++ "/posts" in
  let params := PDict [("access_token", page_token); ("limit", PInt limit)] in
  send_rest_request "GET" endpoint params PNone PNone PNone.

Definition get_single_post (post_id : string) : M pyval :=
  let endpoint := post_id in
  let params := PDict [("access_token", page_token)] in
  send_rest_request "GET" endpoint params PNone PNone PNone.

Definition comment_on_post (post_id message : string) : M pyval :=
  let endpoint := post_id ++ "/comments" in
  let params := PDict [("message", PStr message); ("access_token", page_token)] in
  send_rest_request "POST" endpoint params PNone PNone PNone.

(** [if "error" not in response: ids.append(response.get("id"))] *)
Definition collect_id (response : pyval) (ids : list pyval) : res (list pyval) :=
  (has_error <- contains "error" response ;;
   if has_error then Ret ids
   else
     id <- get response "id" PNone ;;
     Ret (ids ++ [id])%list)%py.

(** [[{"media_fbid": _id} for _id in ids]] *)
Definition attached_media (ids : list pyval) : pyval :=
  PList (map (fun _id => PDict [("media_fbid", _id)]) ids).

(** The feed post that closes every batch upload. *)
Definition post_to_feed (caption : string) (ids : list pyval) : M pyval :=
  let endpoint := page_id self ++ "/feed" in
  let params := PDict [("access_token", page_token)] in
  let json_data := PDict [("message", PStr caption);
                          ("attached_media", attached_media ids)] in
  send_rest_request "POST" endpoint params PNone PNone json_data.

Definition batch_failed (what : string) : pyval := PDict [("error", PStr what)].

Definition internal_error (e : exn) : pyval :=
  PDict [("ok", PBool false); ("error", PStr (exn_str e))].

Definition image_params (image_url : pyval) : pyval :=
  PDict [("access_token", page_token); ("url", image_url); ("published", PStr "false")].

Fixpoint upload_images (image_urls : list string) (image_ids : list pyval)
    : M (list pyval) :=
  match image_urls with
  | [] => mret image_ids
  | image_url :: rest =>
      (let endpoint := page_id self ++ "/photos" in
       let params := image_params (PStr image_url) in
       response <- send_rest_request "POST" endpoint params PNone PNone PNone ;;
       image_ids' <- lift (collect_id response image_ids) ;;
       upload_images rest image_ids')%eff
  end.

Definition post_images_to_page (image_urls : list string) (caption : string) : M pyval :=
  mtry
    (image_ids <- upload_images image_urls [] ;;
     if negb (truthy (PList image_ids))
     then mret (batch_failed "Failed to upload any images")
     else post_to_feed caption image_ids)%eff
    (fun e => mret (internal_error e)).

Fixpoint upload_videos (title : string) (video_urls : list string) (video_ids : list pyval)
    : M (list pyval) :=
  match video_urls with
  | [] => mret video_ids
  | video_url :: rest =>
      (let endpoint := page_id self ++ "/videos" in
       let params := PDict [("access_token", page_token);
                            ("title", PStr title);
                            ("file_url", PStr video_url)] in
       response <- send_rest_request "POST" endpoint params PNone PNone PNone ;;
       video_ids' <- lift (collect_id response video_ids) ;;
       upload_videos title rest video_ids')%eff
  end.

Definition post_videos_to_page (title caption : string) (video_urls : list string)
    : M pyval :=
  mtry
    (video_ids <- upload_videos title video_urls [] ;;
     if negb (truthy (PList video_ids))
     then mret (batch_failed "Failed to upload any videos")
     else post_to_feed caption video_ids)%eff
    (fun e => mret (internal_error e)).

Definition image_types : list string := ["image/jpeg"; "image/png"; "image/gif"; "image/webp"].

Definition document_types : list string := ["application/pdf"; "text/plain"].

Definition audio_types : list string := ["audio/mpeg"; "audio/wav"].

Definition video_types : list string := ["video/mp4"; "video/quicktime"].

(** [detected in types] *)
Definition mime_in (detected : option string) (types : list string) : bool :=
  match detected with
  | Some m => existsb (String.eqb m) types
  | None => false
  end.

Definition classification (file_type : string) (detected : option string) : pyval :=
  PDict [("file_type", PStr file_type); ("mime", opt_str detected)].

Definition classify (detected : option string) : pyval :=
  if mime_in detected image_types then classification "image" detected
  else if mime_in detected document_types then classification "document" detected
  else if mime_in detected audio_types then classification "audio" detected
  else if mime_in detected video_types then classification "video" detected
  else classification "unknown" detected.

(** The URL branch of [get_mime_type]: the probed Content-Type, or the
    early [return None] of the handler. *)
Definition probe (url : pyval) : M (option (option string)) :=
  mtry
    (response <- perform (Head url) ;;
     mret (Some (content_type response)))%eff
    (fun e => if is_request_exception e then mret None else mraise e).

Definition get_mime_type (file_path : option string) (url : pyval)
    (mime_type : option string) : M pyval :=
  if truthy (opt_str file_path) then
    mret (classify (guess_type env (match file_path with Some path => path | None => "" end)))
  else if truthy url then
    (probed <- probe url ;;
     match probed with
     | Some detected => mret (classify detected)
     | None => mret PNone
     end)%eff
  else mret (classify mime_type).

(** Where and with which parameters [post_media_to_page] uploads an entry;
    [None] is the [continue] of the loop. *)
Definition upload_target (media_type media_url : pyval) : option (string * pyval) :=
  if eq_str media_type "video" then
    Some (page_id self ++ "/videos",
          PDict [("access_token", page_token); ("file_url", media_url)])
  else if eq_str media_type "image" then
    Some (page_id self ++ "/photos", image_params media_url)
  else None.

Definition upload_media (media : pyval) (media_ids : list pyval) : M (list pyval) :=
  (media_url <- lift (get media "url" PNone) ;;
   mime_info <- get_mime_type None media_url None ;;
   media_type <- lift (if truthy mime_info then get mime_info "file_type" PNone
                       else Ret PNone) ;;
   match upload_target media_type media_url with
   | Some (endpoint, params) =>
       response <- send_rest_request "POST" endpoint params PNone PNone PNone ;;
       lift (collect_id response media_ids)
   | None => mret media_ids
   end)%eff.

Fixpoint upload_medias (media_urls : list pyval) (media_ids : list pyval)
    : M (list pyval) :=
  match media_urls with
  | [] => mret media_ids
  | media :: rest =>
      (media_ids' <- upload_media media media_ids ;;
       upload_medias rest media_ids')%eff
  end.

Definition post_media_to_page (caption : string) (media_urls : list pyval) : M pyval :=
  mtry
    (media_ids <- upload_medias media_urls [] ;;
     if negb (truthy (PList media_ids))
     then mret (batch_failed "No valid media uploaded")
     else post_to_feed caption media_ids)%eff
    (fun e => mret (internal_error e)).

Definition get_post_comments (post_id : string) (limit : Z) : M pyval :=
  let endpoint := post_id ++ "/comments" in
  let params := PDict [("access_token", page_token); ("limit", PInt limit)] in
  send_rest_request "GET" endpoint params PNone PNone PNone.

Definition reply_to_comment (comment_id message : string) : M pyval :=
  let endpoint := comment_id ++ "/comments" in
  let params := PDict [("message", PStr message); ("access_token", page_token)] in
  send_rest_request "POST" endpoint params PNone PNone PNone.

Definition reply_to_comment_with_attachment (comment_id attachment_url : string)
    : M pyval :=
  let endpoint := comment_id ++ "/comments" in
  let data := PDict [("attachment_url", PStr attachment_url);
                     ("access_token", page_token)] in
  send_rest_request "POST" endpoint PNone data PNone PNone.

Definition update_comment (comment_id message : string) : M pyval :=
  let endpoint := comment_id in
  let data := PDict [("message", PStr message); ("access_token", page_token)] in
  send_rest_request "POST" endpoint PNone data PNone PNone.

Definition like_comment (comment_id : string) : M pyval :=
  let endpoint := comment_id ++ "/likes" in
  let params := PDict [("access_token", page_token)] in
  send_rest_request "POST" endpoint params PNone PNone PNone.

Definition get_reactions (post_id : string) : M pyval :=
  let endpoint := post_id ++ "/reactions" in
  let params := PDict [("access_token", page_token)] in
  send_rest_request "GET" endpoint params PNone PNone PNone.

(** [random.choices(...)] joined: the next random name. *)
Definition draw : M string :=
  fun s => (Ret (random_choices env (draws s)),
            mkState (sent s) (stored s) (S (draws s))).

(** The streaming loop over [response.iter_content(chunk_size=1024)]. *)
Definition read_chunks (r : response) : res string :=
  match chunk_fault r with
  | Some msg => Raise (RequestException msg None)
  | None => Ret (String.concat "" (filter nonempty (chunks r)))
  end.

(** [file_interface.save_file(output_path, bytes(file_bytes))] *)
Definition save (output_path file_bytes : string) : M unit :=
  fun s =>
    match save_file env output_path file_bytes with
    | Some e => (Raise e, s)
    | None => (Ret tt, mkState (sent s) (stored s ++ [(output_path, file_bytes)]) (draws s))
    end.

Definition download_file (url : string) : M pyval :=
  mtry
    (response <- perform (Head (PStr url)) ;;
     let content_type := match content_type response with Some c => c | None => "" end in
     let extension := guess_extension env (before_semicolon content_type) in
     if negb (truthy (opt_str extension)) then mret PNone
     else
       name <- draw ;;
       let filename := name ++ match extension with Some x => x | None => "" end in
       let output_path := "fb/" ++ filename in
       response <- perform (Get url) ;;
       if (status_code response =? 200)%Z then
         file_bytes <- lift (read_chunks response) ;;
         _ <- save output_path file_bytes ;;
         lift (get_file_url env output_path)
       else mret PNone)%eff
    (fun _ => mret PNone).

Definition share_facebook_post (post_id : string) : M pyval :=
  (let endpoint := post_id in
   let params := PDict [("fields", PStr "permalink_url"); ("access_token", page_token)] in
   response <- send_rest_request "GET" endpoint params PNone PNone PNone ;;
   has_link <- lift (contains "permalink_url" response) ;;
   if has_link then
     link <- lift (getitem response "permalink_url") ;;
     mret (PDict [("status", PStr "success"); ("data", link)])
   else
     message <- lift (get response "error" (PStr "Unknown error")) ;;
     mret (PDict [("status", PStr "error"); ("message", message)]))%eff.

End Client.

End FacebookAPI.

Import FacebookAPI.

(** * The configuration panel *)

(** [facebook_action/app/app.py].  The Streamlit widgets, the host's
    [app_header], [app_controls] and [app_update_action] and the
    action-execution bridge are outside the repository: what [render] does
    is the sequence of calls it makes to them.  The calls are taken to
    return; [render] has no handler of its own. *)
Module App.

Inductive widget : Type :=
| AppHeader (agent_id action_id : string) (info : pyval)
| Expander (label : string) (expanded : bool)
| AppControls (agent_id action_id : string)
| AppUpdateAction (agent_id action_id : string)
| Markdown (text : string)
| Button (label key : string)
| WalkerExec (agent_id module_root action : string) (args : pyval)
| Success (text : string)
| Error (text : string).

Record host : Type := mkHost {
  app_header : string -> string -> pyval -> string * string;  (* model_key, module_root *)
  button : string -> string -> bool;          (* st.button(label, key): clicked *)
  call_action_walker_exec : string -> string -> string -> pyval -> pyval
}.

Definition render (h : host) (agent_id action_id : string) (info : pyval) : list widget :=
  let (model_key, module_root) := app_header h agent_id action_id info in
  let key := model_key ++ "_btn_register_webhook" in
  [AppHeader agent_id action_id info;
   Expander "Facebook Configuration" false;
   AppControls agent_id action_id;
   AppUpdateAction agent_id action_id;
   Expander "Register Webhook" true;
   Markdown "### Webhook Registration";
   Markdown ("Click the button below to register the webhook. "
             ++ "This enables your agent to communicate with Facebook.");
   Button "Register Webhook" key]
  ++ (if button h "Register Webhook" key then
        let result := call_action_walker_exec h agent_id module_root "register_session"
                                              (PDict []) in
        [WalkerExec agent_id module_root "register_session" (PDict []);
         if truthy result
         then Success "Webhook registered successfully!"
         else Error "Failed to register webhook. Please try again."]
      else [])%list.

End App.

(** * Vocabulary of the statements *)

(** ** Logs and scripted environments *)

(** The state after one more HTTP call. *)
Definition logged (c : call) (s : state) : state :=
  mkState (sent s ++ [c]) (stored s) (draws s).

(** The state after the calls [cs], in order. *)
Definition logged_all (cs : list call) (s : state) : state :=
  mkState (sent s ++ cs) (stored s) (draws s).

Definition initial : state := mkState [] [] 0.

(** From its k-th call on, the environment answers with [answers]. *)
Definition scripted (env : environment) (k : nat) (answers : list transport) : Prop :=
  forall i t, nth_error answers i = Some t -> net env (k + i) = t.

(** An environment with the given transport and quiet collaborators. *)
Definition environment_of (answers : nat -> transport) : environment :=
  mkEnvironment answers (fun _ => None) (fun _ => None) (fun _ => "a1b2c3d4e5")
                (fun _ _ => None) (fun path => Ret (PStr ("https://files.example/" ++ path))).

(** The environment that plays [answers] and then keeps refusing
    connections. *)
Definition script (answers : list transport) : environment :=
  environment_of (fun n => nth n answers
                               (Failed (RequestException "Connection refused" None))).

(** A 200 response whose body decodes to [v]. *)
Definition ok_json (v : pyval) : transport :=
  Responded (mkResponse 200 "" "{...}" (inr v) (Some "application/json") [] None).

(** ** The request boundary *)

(** What [send_rest_request] makes of the answer of the transport: the
    body of its [try] and its three handlers, without the call itself. *)
Definition rest_result (self : config) (t : transport) : res pyval :=
  rtry
    match t with
    | Responded r =>
        (_ <- raise_for_status r ;;
         if nonempty (content r) then response_json r else Ret (PDict []))%py
    | Failed e => Raise e
    end
    (fun e =>
       match e with
       | Timeout _ => Ret (timeout_envelope self)
       | RequestException _ resp =>
           (error_details <- error_details_of resp ;;
            Ret (PDict [("error", PStr (exn_str e)); ("details", error_details)]))%py
       | _ => Ret (PDict [("error", PStr (exn_str e))])
       end).

(** The call [send_rest_request] issues. *)
Definition rest_call (self : config) (method endpoint : string)
    (params data headers json_body : pyval) : call :=
  Request (upper method) (absolute_url self endpoint) params data json_body headers
          (timeout self).

(** What a batch call makes of its closing feed post: the handler of the
    batch catches what the request boundary lets through. *)
Definition feed_result (self : config) (t : transport) : pyval :=
  match rest_result self t with
  | Ret v => v
  | Raise e => PDict [("ok", PBool false); ("error", PStr (exn_str e))]
  end.

(** ** Payloads, MIME types, pages and batches *)

(** The first entry of a payload has key [k]. *)
Definition first_entry_has (k : string) (request : pyval) : res bool :=
  (entries <- getitem request "entry" ;;
   entry <- getitem0 entries ;;
   contains k entry)%py.

(** The category the allow-lists give a detected MIME type. *)
Definition category_of (detected : option string) (file_type : string) : Prop :=
  match detected with
  | Some m =>
      (file_type = "image" /\ In m ["image/jpeg"; "image/png"; "image/gif"; "image/webp"]) \/
      (file_type = "document" /\ In m ["application/pdf"; "text/plain"]) \/
      (file_type = "audio" /\ In m ["audio/mpeg"; "audio/wav"]) \/
      (file_type = "video" /\ In m ["video/mp4"; "video/quicktime"]) \/
      (file_type = "unknown" /\
       ~ In m ["image/jpeg"; "image/png"; "image/gif"; "image/webp";
               "application/pdf"; "text/plain"; "audio/mpeg"; "audio/wav";
               "video/mp4"; "video/quicktime"])
  | None => file_type = "unknown"
  end.

(** The MIME type [get_mime_type] classifies when it issues no probe. *)
Definition unprobed_mime (env : environment) (file_path mime_type : option string)
    : option string :=
  match file_path with
  | Some path => if truthy (PStr path) then guess_type env path else mime_type
  | None => mime_type
  end.

(** One page of a paginated listing: the decoded response, the records
    under its "data" and the URL under its "paging.next". *)
Record page : Type := mkPage {
  body : pyval;
  items : list pyval;
  next : pyval
}.

(** [p] reads a response without an "error" key: [items] is its "data"
    list (empty when the key is absent), [next] its [paging.next] (None when
    absent). *)
Definition well_formed (p : page) : Prop :=
  contains "error" (body p) = Ret false /\
  get (body p) "data" (PList []) = Ret (PList (items p)) /\
  exists paging,
    get (body p) "paging" (PDict []) = Ret paging /\
    get paging "next" PNone = Ret (next p).

(** A page that links to a next one by a URL. *)
Definition linked (p : page) : Prop :=
  well_formed p /\ exists url, next p = PStr url /\ url <> "".


(** An upload went through: its response is an object without an "error"
    key. *)
Definition succeeded (response : pyval) : bool :=
  match response with
  | PDict d => negb (has_key "error" d)
  | _ => false
  end.

Definition id_of (response : pyval) : pyval :=
  match response with
  | PDict d => dict_get d "id" PNone
  | _ => PNone
  end.

(** The media ids of the successful uploads, in the order of the uploads. *)
Definition uploaded_ids (responses : list pyval) : list pyval :=
  map id_of (filter succeeded responses).

Definition is_dict (v : pyval) : Prop := exists d, v = PDict d.

(** A request to a Graph endpoint, as opposed to a probe of a media URL. *)
Definition is_request (c : call) : bool :=
  match c with Request _ _ _ _ _ _ _ => true | _ => false end.

(** The call is the aggregating feed post of a batch: it carries a JSON
    body. *)
Definition carries_json (c : call) : bool :=
  match c with
  | Request _ _ _ _ json_body _ _ => negb (is_none json_body)
  | _ => false
  end.

Section Vocabulary.

Variable env : environment.
Variable self : config.

(** The handshake is accepted: [hub.mode] is "subscribe" and
    [hub.verify_token] is the configured token. *)
Definition accepted (d : list (string * pyval)) : Prop :=
  dict_get d "hub.mode" PNone = PStr "subscribe" /\
  dict_get d "hub.verify_token" PNone = PStr (verify_token self).

Definition accepted_b (d : list (string * pyval)) : bool :=
  eq_str (dict_get d "hub.verify_token" PNone) (verify_token self)
  && eq_str (dict_get d "hub.mode" PNone) "subscribe".

(** The extension derived from the probed Content-Type. *)
Definition probed_extension (r : response) : option string :=
  guess_extension env
    (before_semicolon match content_type r with Some c => c | None => "" end).

(** Where the download with extension [ext] is stored, from state [s]. *)
Definition output_path (s : state) (ext : string) : string :=
  "fb/" ++ (random_choices env (draws s) ++ ext).

(** The steps of [download_file] after an extension was found. *)
Definition fetch_and_store (url ext : string) : M pyval :=
  (name <- draw env ;;
   response <- perform env (Get url) ;;
   if (status_code response =? 200)%Z then
     file_bytes <- lift (read_chunks response) ;;
     _ <- save env ("fb/" ++ (name ++ ext)) file_bytes ;;
     lift (get_file_url env ("fb/" ++ (name ++ ext)))
   else mret PNone)%eff.

(** What [send_rest_request] returns for each of the answers. *)
Definition returned (answers : list transport) (bodies : list pyval) : Prop :=
  Forall2 (fun t b => rest_result self t = Ret b) answers bodies.

(** The request for the page at [next_page]. *)
Definition follow_up (next_page : pyval) : call :=
  rest_call self "GET" (match next_page with PStr url => url | _ => "" end)
            (PDict []) PNone PNone PNone.

(** The upload request for one image URL. *)
Definition photo_upload (image_url : string) : call :=
  rest_call self "POST" (page_id self ++ "/photos")
            (PDict [("access_token", PStr (access_token self));
                    ("url", PStr image_url);
                    ("published", PStr "false")])
            PNone PNone PNone.

(** The upload request for one video URL. *)
Definition video_upload (title video_url : string) : call :=
  rest_call self "POST" (page_id self ++ "/videos")
            (PDict [("access_token", PStr (access_token self));
                    ("title", PStr title);
                    ("file_url", PStr video_url)])
            PNone PNone PNone.

(** The aggregating feed post, with the given media ids attached. *)
Definition feed_post (caption : string) (ids : list pyval) : call :=
  rest_call self "POST" (page_id self ++ "/feed")
            (PDict [("access_token", PStr (access_token self))])
            PNone PNone
            (PDict [("message", PStr caption);
                    ("attached_media",
                     PList (map (fun i => PDict [("media_fbid", i)]) ids))]).

(** The upload request of [post_media_to_page] for a video or an image. *)
Definition media_upload (file_type : string) (media_url : pyval) : call :=
  if String.eqb file_type "video"
  then rest_call self "POST" (page_id self ++ "/videos")
                 (PDict [("access_token", PStr (access_token self));
                         ("file_url", media_url)])
                 PNone PNone PNone
  else rest_call self "POST" (page_id self ++ "/photos")
                 (PDict [("access_token", PStr (access_token self));
                         ("url", media_url);
                         ("published", PStr "false")])
                 PNone PNone PNone.

(** The entry [media] is skipped: its URL is classified neither as an image
    nor as a video.  [answers] is what the environment says meanwhile and
    [calls] what the client issues: at most the probe. *)
Inductive skipped : pyval -> list transport -> list call -> Prop :=
| skipped_without_url (d : list (string * pyval)) :
    truthy (dict_get d "url" PNone) = false ->
    skipped (PDict d) [] []
| skipped_probe_raised (d : list (string * pyval)) (e : exn) :
    truthy (dict_get d "url" PNone) = true ->
    is_request_exception e = true ->
    skipped (PDict d) [Failed e] [Head (dict_get d "url" PNone)]
| skipped_other_type (d : list (string * pyval)) (r : response) (file_type : string) :
    truthy (dict_get d "url" PNone) = true ->
    category_of (content_type r) file_type ->
    file_type <> "image" -> file_type <> "video" ->
    skipped (PDict d) [Responded r] [Head (dict_get d "url" PNone)].

(** The entry [media] is an image or a video whose upload fails: the
    response has an "error" key. *)
Inductive failed : pyval -> list transport -> list call -> Prop :=
| failed_upload (d : list (string * pyval)) (r : response) (file_type : string)
    (t : transport) (response : pyval) :
    truthy (dict_get d "url" PNone) = true ->
    category_of (content_type r) file_type ->
    file_type = "image" \/ file_type = "video" ->
    rest_result self t = Ret response ->
    contains "error" response = Ret true ->
    failed (PDict d) [Responded r; t]
           [Head (dict_get d "url" PNone);
            media_upload file_type (dict_get d "url" PNone)].

(** Every entry of the batch is skipped or fails. *)
Inductive fruitless : list pyval -> list transport -> list call -> Prop :=
| fruitless_nil : fruitless [] [] []
| fruitless_cons media media_urls answers answers' calls calls' :
    skipped media answers calls \/ failed media answers calls ->
    fruitless media_urls answers' calls' ->
    fruitless (media :: media_urls) (answers ++ answers') (calls ++ calls').

End Vocabulary.

(** ** Credentials *)




Definition app_credential (self : config) : pyval :=
  PStr (app_id self ++ "|" ++ app_secret self).

(** The outbound operations of the client, with their arguments. *)
Inductive operation : Type :=
| RegisterSession (webhook_url : string)
| SendTextMessage (recipient_id message : string)
| SendMedia (recipient_id media_url media_type : string)
| PostMessageToPage (message : string)
| PostImagesToPage (image_urls : list string) (caption : string)
| PostVideosToPage (title caption : string) (video_urls : list string)
| PostMediaToPage (caption : string) (media_urls : list pyval)
| CommentOnPost (post_id message : string)
| ReplyToComment (comment_id message : string)
| ReplyToCommentWithAttachment (comment_id attachment_url : string)
| UpdateComment (comment_id message : string)
| LikeComment (comment_id : string)
| GetUserInfo (fields : string)
| ListAllPages (fuel : nat) (limit : Z)
| GetPageDetails (fields : string)
| GetPagePosts (limit : Z)
| GetSinglePost (post_id : string)
| GetPostComments (post_id : string) (limit : Z)
| GetReactions (post_id : string)
| ShareFacebookPost (post_id : string).







#[local] Open Scope list_scope.


(** ** Further vocabulary *)

(** The first reads [list_all_pages] makes of a response: [None] when it
    has an "error" key, else the records to append and the next page. *)
Definition read_page (response : pyval) : res (option (list pyval * pyval)) :=
  (has_error <- contains "error" response ;;
   if has_error then Ret None
   else
     data <- get response "data" (PList []) ;;
     items <- iterate data ;;
     paging <- get response "paging" (PDict []) ;;
     next_page <- get paging "next" PNone ;;
     Ret (Some (items, next_page)))%py.

(** The upload whose answer is [t] raises [e]: at the request boundary, or
    when its response is read. *)
Definition upload_raises (self : config) (t : transport) (e : exn) : Prop :=
  rest_result self t = Raise e \/
  exists response, rest_result self t = Ret response /\ collect_id response [] = Raise e.

(** The entry [media] is an image or a video and its upload goes through:
    [id] is the "id" of the response. *)
Inductive uploaded (self : config) : pyval -> list transport -> list call -> pyval -> Prop :=
| uploaded_media (d : list (string * pyval)) (r : response) (file_type : string)
    (t : transport) (response : list (string * pyval)) :
    truthy (dict_get d "url" PNone) = true ->
    category_of (content_type r) file_type ->
    file_type = "image"%string \/ file_type = "video"%string ->
    rest_result self t = Ret (PDict response) ->
    has_key "error" response = false ->
    uploaded self (PDict d) [Responded r; t]
             [Head (dict_get d "url" PNone);
              media_upload self file_type (dict_get d "url" PNone)]
             (dict_get response "id" PNone).

(** A run of the loop of [post_media_to_page] over a batch: the answers
    of the environment, the calls issued and the media ids collected. *)
Inductive handled (self : config)
    : list pyval -> list transport -> list call -> list pyval -> Prop :=
| handled_nil : handled self [] [] [] []
| handled_without_id media media_urls answers answers' calls calls' ids :
    skipped media answers calls \/ failed self media answers calls ->
    handled self media_urls answers' calls' ids ->
    handled self (media :: media_urls) (answers ++ answers') (calls ++ calls') ids
| handled_with_id media media_urls answers answers' calls calls' id ids :
    uploaded self media answers calls id ->
    handled self media_urls answers' calls' ids ->
    handled self (media :: media_urls) (answers ++ answers') (calls ++ calls') (id :: ids).

(** A parsed payload without the raw request it carries under "data". *)
Definition without_data (result : res pyval) : res pyval :=
  match result with
  | Ret (PDict d) => Ret (PDict (filter (fun kv => negb (String.eqb (fst kv) "data")) d))
  | _ => result
  end.

(** What an operation gives its caller; [None] is a listing out of fuel. *)
Definition outcome (env : environment) (self : config) (op : operation) (s : state)
    : res (option pyval) :=
  let some (r : res pyval) : res (option pyval) :=
    match r with Ret v => Ret (Some v) | Raise e => Raise e end in
  match op with
  | RegisterSession webhook_url => some (fst (register_session env self webhook_url s))
  | SendTextMessage recipient_id message =>
      some (fst (send_text_message env self recipient_id message s))
  | SendMedia recipient_id media_url media_type =>
      some (fst (send_media env self recipient_id media_url media_type s))
  | PostMessageToPage message => some (fst (post_message_to_page env self message s))
  | PostImagesToPage image_urls caption =>
      some (fst (post_images_to_page env self image_urls caption s))
  | PostVideosToPage title caption video_urls =>
      some (fst (post_videos_to_page env self title caption video_urls s))
  | PostMediaToPage caption media_urls =>
      some (fst (post_media_to_page env self caption media_urls s))
  | CommentOnPost post_id message => some (fst (comment_on_post env self post_id message s))
  | ReplyToComment comment_id message =>
      some (fst (reply_to_comment env self comment_id message s))
  | ReplyToCommentWithAttachment comment_id attachment_url =>
      some (fst (reply_to_comment_with_attachment env self comment_id attachment_url s))
  | UpdateComment comment_id message =>
      some (fst (update_comment env self comment_id message s))
  | LikeComment comment_id => some (fst (like_comment env self comment_id s))
  | GetUserInfo fields => some (fst (get_user_info env self fields s))
  | ListAllPages fuel limit => fst (list_all_pages env self fuel limit s)
  | GetPageDetails fields => some (fst (get_page_details env self fields s))
  | GetPagePosts limit => some (fst (get_page_posts env self limit s))
  | GetSinglePost post_id => some (fst (get_single_post env self post_id s))
  | GetPostComments post_id limit => some (fst (get_post_comments env self post_id limit s))
  | GetReactions post_id => some (fst (get_reactions env self post_id s))
  | ShareFacebookPost post_id => some (fst (share_facebook_post env self post_id s))
  end.

(** The operations that wrap their body in [try ... except Exception]. *)
Definition guarded (op : operation) : bool :=
  match op with
  | PostImagesToPage _ _ | PostVideosToPage _ _ _ | PostMediaToPage _ _
  | ListAllPages _ _ => true
  | _ => false
  end.

(** The operations that return the result of [send_rest_request] as it
    is. *)
Definition passes_through (op : operation) : bool :=
  match op with
  | PostImagesToPage _ _ | PostVideosToPage _ _ _ | PostMediaToPage _ _
  | ListAllPages _ _ | ShareFacebookPost _ => false
  | _ => true
  end.

(** The first element under key [k] of an entry: [entry[k][0]]. *)
Definition first_of (entry : pyval) (k : string) : res pyval :=
  (l <- getitem entry k ;; getitem0 l)%py.

(** The listing stops on [response] with the exception [e]: a read of the
    response raises, or the page links to something that is not a string, on
    which the next request cannot be built. *)
Definition breaks_listing (response : pyval) (e : exn) : Prop :=
  read_page response = Raise e \/
  exists items next_page,
    read_page response = Ret (Some (items, next_page)) /\
    truthy next_page = true /\
    (forall url, next_page <> PStr url) /\
    e = AttributeError ("'" ++ type_name next_page
                        ++ "' object has no attribute 'startswith'")%string.

(** ** What an operation sends first, and what each call attaches *)









(** * Sample payloads and environments *)

Definition example_config (token : string) : config :=
  mkConfig "https://graph.facebook.com/v19.0/" "SECRET" "APP" "PAGE" "PAGETOKEN" token
           (Some "messages,feed") 10.

Definition example_handshake : list (string * pyval) :=
  [("hub.mode", PStr "subscribe"); ("hub.verify_token", PStr "T");
   ("hub.challenge", PStr "123")].

Definition feed_comment : pyval :=
  PDict [("object", PStr "page");
         ("entry",
          PList [PDict [("id", PStr "PAGE");
                        ("changes",
                         PList [PDict [("field", PStr "feed");
                                       ("value",
                                        PDict [("from", PDict [("id", PStr "U1");
                                                               ("name", PStr "Ann")]);
                                               ("item", PStr "comment");
                                               ("message", PStr "hello")])]])]])].

Definition messenger_text : pyval :=
  PDict [("object", PStr "page");
         ("entry",
          PList [PDict [("id", PStr "PAGE");
                        ("messaging",
                         PList [PDict [("sender", PDict [("id", PStr "U2")]);
                                       ("message", PDict [("mid", PStr "m1");
                                                          ("text", PStr "hi")])]])]])].

(** A Messenger delivery receipt: a "messaging" entry without a "message". *)
Definition delivery_receipt : pyval :=
  PDict [("object", PStr "page");
         ("entry",
          PList [PDict [("id", PStr "PAGE");
                        ("messaging",
                         PList [PDict [("sender", PDict [("id", PStr "U2")]);
                                       ("delivery",
                                        PDict [("watermark", PInt 1458668856253)])]])]])].

(** A feed change with a well-formed [value.from] whose entry has no "id". *)
Definition change_without_entry_id : pyval :=
  PDict [("entry",
          PList [PDict [("changes",
                         PList [PDict [("value",
                                        PDict [("from", PDict [("id", PStr "U1");
                                                               ("name", PStr "Ann")]);
                                               ("item", PStr "comment");
                                               ("message", PStr "hello")])]])]])].


(** The last response of a redirect loop: a 3xx status, an HTML body. *)
Definition redirect_page : response :=
  mkResponse 302 "" "<html><body>302 Found</body></html>"
             (inl "Expecting value: line 1 column 1 (char 0)")
             (Some "text/html") [] None.

(** [requests] gives up after 30 redirects with [TooManyRedirects], a
    [RequestException] that carries the last response. *)
Definition redirect_loop : environment :=
  environment_of (fun _ => Failed (RequestException "Exceeded 30 redirects."
                                                   (Some redirect_page))).

(** A probe that times out. *)
Definition unreachable : environment :=
  environment_of (fun _ => Failed (Timeout "HTTPSConnectionPool: Read timed out.")).

Definition png_page : response :=
  mkResponse 200 "" "PNG" (inl "not JSON") (Some "image/png") ["PNG"] None.

Definition pdf_page : response :=
  mkResponse 200 "" "%PDF" (inl "not JSON") (Some "application/pdf") ["%PDF"] None.

(** A probe that answers with a Content-Type [mimetypes] has no extension
    for. *)
Definition opaque_page : response :=
  mkResponse 200 "" "" (inl "not JSON") (Some "application/x-unknown; charset=utf-8") [] None.

Definition first_page : page :=
  mkPage (PDict [("data", PList [PDict [("id", PStr "1")]; PDict [("id", PStr "2")]]);
                 ("paging", PDict [("next", PStr "https://graph.facebook.com/p2")])])
         [PDict [("id", PStr "1")]; PDict [("id", PStr "2")]]
         (PStr "https://graph.facebook.com/p2").

Definition last_page : page :=
  mkPage (PDict [("data", PList [PDict [("id", PStr "3")]]);
                 ("paging", PDict [("cursors", PDict [])])])
         [PDict [("id", PStr "3")]]
         PNone.

Definition error_body : pyval :=
  PDict [("error", PDict [("message", PStr "Invalid OAuth access token.");
                          ("code", PInt 190)])].

Definition upload_ok (id : string) : transport := ok_json (PDict [("id", PStr id)]).

Definition upload_rejected : transport :=
  Responded (mkResponse 400 "400 Client Error: Bad Request" "{...}"
                        (inr error_body) (Some "application/json") [] None).

Definition three_uploads : list transport :=
  [upload_ok "m1"; upload_rejected; upload_ok "m3"; upload_ok "post1"].

Definition mixed_batch : list pyval :=
  [PDict [("url", PStr "https://cdn.example/terms.pdf")];
   PDict [("url", PStr "https://cdn.example/a.png")];
   PDict [("name", PStr "no url here")]].

Definition mixed_answers : list transport :=
  [Responded pdf_page; Responded png_page; upload_rejected].

Definition mixed_calls : list call :=
  [Head (PStr "https://cdn.example/terms.pdf");
   Head (PStr "https://cdn.example/a.png");
   media_upload (example_config "T") "image" (PStr "https://cdn.example/a.png")].

(** Two entries in one webhook, the first with two events. *)
Definition batched_webhook : pyval :=
  PDict [("object", PStr "page");
         ("entry",
          PList [PDict [("id", PStr "PAGE");
                        ("messaging",
                         PList [PDict [("sender", PDict [("id", PStr "U2")]);
                                       ("message", PDict [("mid", PStr "m1");
                                                          ("text", PStr "hi")])];
                                PDict [("sender", PDict [("id", PStr "U9")]);
                                       ("message", PDict [("mid", PStr "m9");
                                                          ("text", PStr "again")])]])];
                 PDict [("id", PStr "PAGE");
                        ("messaging",
                         PList [PDict [("sender", PDict [("id", PStr "U3")]);
                                       ("message", PDict [("mid", PStr "m2");
                                                          ("text", PStr "second")])]])]])].

(** A host whose button is clicked and whose bridge answers [result]. *)
Definition clicking_host (result : pyval) : App.host :=
  App.mkHost (fun _ action_id _ => (action_id, "actions.facebook_action"%string))
             (fun _ _ => true) (fun _ _ _ _ => result).

(** An image served with a parameter after its type. *)
Definition png_with_charset : response :=
  mkResponse 200 "" "PNG" (inl "not JSON"%string) (Some "image/png; charset=binary"%string)
             ["PNG"%string] None.

(** A server whose every page links to a further one. *)
Definition endless : environment :=
  environment_of (fun _ => ok_json (body first_page)).

(** A page whose "paging" is null. *)
Definition page_without_paging : pyval :=
  PDict [("data", PList [PDict [("id", PStr "3")]]); ("paging", PNone)].

(** One upload accepted, then an upload answered by a JSON array. *)
Definition array_answer : list transport :=
  [upload_ok "m1"; ok_json (PList []); upload_ok "m3"; upload_ok "post1"].

Definition mp4_page : response :=
  mkResponse 200 "" "ftyp" (inl "not JSON") (Some "video/mp4") ["ftyp"] None.

(** A document, an image and a video in one batch. *)
Definition launch_batch : list pyval :=
  [PDict [("url", PStr "https://cdn.example/terms.pdf")];
   PDict [("url", PStr "https://cdn.example/a.png")];
   PDict [("url", PStr "https://cdn.example/clip.mp4")]].

Definition launch_answers : list transport :=
  [Responded pdf_page; Responded png_page; upload_ok "m1";
   Responded mp4_page; upload_ok "v1"].

Definition launch_calls : list call :=
  [Head (PStr "https://cdn.example/terms.pdf");
   Head (PStr "https://cdn.example/a.png");
   media_upload (example_config "T") "image" (PStr "https://cdn.example/a.png");
   Head (PStr "https://cdn.example/clip.mp4");
   media_upload (example_config "T") "video" (PStr "https://cdn.example/clip.mp4")].

(** A file server: the probe and the download of a PNG sent in two
    chunks with a keep-alive chunk between them, a type table that knows
    "image/png", and a store that takes the file but cannot name its URL. *)
Definition png_download : response :=
  mkResponse 200 "" "PNGDATA" (inl "not JSON"%string) (Some "image/png"%string)
             ["PNG"%string; ""%string; "DATA"%string] None.

Definition file_server : environment :=
  mkEnvironment (fun n => Responded (if Nat.eqb n 0 then png_with_charset else png_download))
                (fun _ => None)
                (fun t => if String.eqb t "image/png" then Some ".png"%string else None)
                (fun _ => "a1b2c3d4e5"%string)
                (fun _ _ => None)
                (fun _ => Raise (OtherException "storage offline")).

(** * Properties *)

(** ** Python primitives *)

Lemma eq_str_true (v : pyval) (s : string) : eq_str v s = true <-> v = PStr s.
Proof.
  destruct v; simpl; try (split; [discriminate | intros H; discriminate H]).
  rewrite String.eqb_eq. split; [intros -> | intros [= ->]]; reflexivity.
Qed.

Lemma get_dict (d : list (string * pyval)) (k : string) (default : pyval) :
  get (PDict d) k default = Ret (dict_get d k default).
Proof. reflexivity. Qed.

Lemma existsb_eqb_In (m : string) (l : list string) :
  existsb (String.eqb m) l = true <-> In m l.
Proof.
  rewrite existsb_exists. split.
  - intros (x & Hx & E). apply String.eqb_eq in E. subst. exact Hx.
  - intros H. exists m. split; [exact H | apply String.eqb_refl].
Qed.

(** ** Webhook verification *)

Section Verification.

Variable self : config.

Lemma accepted_reflect (d : list (string * pyval)) :
  accepted_b self d = true <-> accepted self d.
Proof.
  unfold accepted_b, accepted. rewrite andb_true_iff, !eq_str_true. tauto.
Qed.

Lemma parse_verification_request_dict (d : list (string * pyval)) :
  parse_verification_request self (PDict d) =
  Ret (if accepted_b self d
       then (if is_none (dict_get d "hub.challenge" PNone) then PStr ""
             else dict_get d "hub.challenge" PNone)
       else rejection).
Proof.
  unfold parse_verification_request, accepted_b. simpl.
  destruct (eq_str _ _ && eq_str _ _); reflexivity.
Qed.

Lemma parse_verification_request_total (request : pyval) :
  exists v, parse_verification_request self request = Ret v.
Proof.
  destruct request;
    try (eexists; reflexivity).
  rewrite parse_verification_request_dict. eexists; reflexivity.
Qed.

End Verification.

(** C4. On a request dict, [parse_verification_request] returns the
    [hub.challenge] value (the empty string when [request.get] finds none)
    when [hub.mode] is "subscribe" and [hub.verify_token] is the configured
    token, and the 403 rejection payload otherwise; a string result only ever
    comes from an accepted handshake; and no request, dict or not, makes it
    raise. *)
Theorem parse_verification_request_handshake :
  forall (self : config) (d : list (string * pyval)),
    let challenge := dict_get d "hub.challenge" PNone in
    (accepted self d ->
     parse_verification_request self (PDict d) =
     Ret (if is_none challenge then PStr "" else challenge)) /\
    (~ accepted self d ->
     parse_verification_request self (PDict d) =
     Ret (PDict [("message", PStr "Invalid token or mode"); ("code", PInt 403)])) /\
    (forall s, parse_verification_request self (PDict d) = Ret (PStr s) ->
               accepted self d) /\
    (forall request, exists v, parse_verification_request self request = Ret v).
Proof.
  intros self d challenge. subst challenge.
  rewrite parse_verification_request_dict.
  pose proof (accepted_reflect self d) as R.
  destruct (accepted_b self d).
  - assert (A : accepted self d) by (apply R; reflexivity).
    split; [reflexivity |]. split; [intros N; contradiction |].
    split; [intros _ _; exact A | apply parse_verification_request_total].
  - assert (N : ~ accepted self d) by (intros A; apply R in A; discriminate A).
    split; [intros A; contradiction |]. split; [reflexivity |].
    split; [intros s H; discriminate H | apply parse_verification_request_total].
Qed.

Lemma parse_verification_request_handshake_witness :
  parse_verification_request (example_config "T") (PDict example_handshake)
    = Ret (PStr "123") /\
  parse_verification_request (example_config "WRONG") (PDict example_handshake)
    = Ret (PDict [("message", PStr "Invalid token or mode"); ("code", PInt 403)]).
Proof.
  split.
  - apply (proj1 (parse_verification_request_handshake (example_config "T")
                    example_handshake)).
    split; reflexivity.
  - apply (proj1 (proj2 (parse_verification_request_handshake (example_config "WRONG")
                           example_handshake))).
    intros [_ H]. discriminate H.
Defined.

(** ** Inbound webhook payloads *)

(** Rewrites with the equations at hand, one subscript at a time. *)
Ltac subscripts :=
  repeat match goal with
         | H : ?lhs = Ret _ |- context [?lhs] => rewrite H; cbn [rbind rtry]
         end.

(** C1 (amended). When the first entry of the payload has an "id": if it
    has a "changes" key whose first element's "value" is an object with a
    well-formed "from" and an "item", the record takes sender_id and
    sender_name from value.from, message_type from value["item"] and message
    from value.get("message") or value.get("reaction_type"); if it has no
    "changes" key but a "messaging" key whose first element has a sender id
    and a "message" object, the record has message_type "message", message
    the text of that object and attachments its attachments, or the empty
    list. *)
Theorem parse_inbound_message_shapes :
  forall request entries entry page_id,
    getitem request "entry" = Ret entries ->
    getitem0 entries = Ret entry ->
    getitem entry "id" = Ret page_id ->
    (forall changes change0 value from sender_id sender_name item,
        contains "changes" entry = Ret true ->
        getitem entry "changes" = Ret changes ->
        getitem0 changes = Ret change0 ->
        getitem change0 "value" = Ret (PDict value) ->
        getitem (PDict value) "from" = Ret from ->
        getitem from "id" = Ret sender_id ->
        getitem from "name" = Ret sender_name ->
        getitem (PDict value) "item" = Ret item ->
        parse_inbound_message request =
        Ret (PDict [("sender_name", sender_name);
                    ("sender_id", sender_id);
                    ("page_id", page_id);
                    ("message_type", item);
                    ("message", py_or (dict_get value "message" PNone)
                                      (dict_get value "reaction_type" PNone));
                    ("attachments", PList []);
                    ("caption", PStr "");
                    ("data", request);
                    ("parent_message_id", PStr "")])) /\
    (forall messagings messaging sender sender_id message,
        contains "changes" entry = Ret false ->
        contains "messaging" entry = Ret true ->
        getitem entry "messaging" = Ret messagings ->
        getitem0 messagings = Ret messaging ->
        getitem messaging "sender" = Ret sender ->
        getitem sender "id" = Ret sender_id ->
        getitem messaging "message" = Ret (PDict message) ->
        parse_inbound_message request =
        Ret (PDict [("sender_name", PStr "");
                    ("sender_id", sender_id);
                    ("page_id", page_id);
                    ("message_type", PStr "message");
                    ("message", dict_get message "text" PNone);
                    ("attachments", dict_get message "attachments" (PList []));
                    ("caption", PStr "");
                    ("data", request);
                    ("parent_message_id", PStr "")])).
Proof.
  intros request entries entry page_id Hentries Hentry Hid. split.
  - intros changes change0 value from sender_id sender_name item
           Hin Hchanges Hchange0 Hvalue Hfrom Hsid Hname Hitem.
    unfold parse_inbound_message. subscripts.
    rewrite !get_dict. cbn [rbind]. unfold py_or.
    destruct (truthy (dict_get value "message" PNone)); reflexivity.
  - intros messagings messaging sender sender_id message
           Hno Hin Hms Hm Hsender Hsid Hmessage.
    unfold parse_inbound_message. subscripts.
    rewrite !get_dict. reflexivity.
Qed.

Lemma parse_inbound_message_shapes_witness :
  parse_inbound_message feed_comment =
  Ret (PDict [("sender_name", PStr "Ann"); ("sender_id", PStr "U1");
              ("page_id", PStr "PAGE"); ("message_type", PStr "comment");
              ("message", PStr "hello"); ("attachments", PList []);
              ("caption", PStr ""); ("data", feed_comment);
              ("parent_message_id", PStr "")]) /\
  parse_inbound_message messenger_text =
  Ret (PDict [("sender_name", PStr ""); ("sender_id", PStr "U2");
              ("page_id", PStr "PAGE"); ("message_type", PStr "message");
              ("message", PStr "hi"); ("attachments", PList []);
              ("caption", PStr ""); ("data", messenger_text);
              ("parent_message_id", PStr "")]).
Proof.
  split.
  - exact (proj1 (parse_inbound_message_shapes feed_comment _ _ _
                    eq_refl eq_refl eq_refl)
                 _ _ [("from", PDict [("id", PStr "U1"); ("name", PStr "Ann")]);
                      ("item", PStr "comment"); ("message", PStr "hello")]
                 _ _ _ _
                 eq_refl eq_refl eq_refl eq_refl eq_refl eq_refl eq_refl eq_refl).
  - exact (proj2 (parse_inbound_message_shapes messenger_text _ _ _
                    eq_refl eq_refl eq_refl)
                 _ _ _ _ [("mid", PStr "m1"); ("text", PStr "hi")]
                 eq_refl eq_refl eq_refl eq_refl eq_refl eq_refl eq_refl).
Defined.

(** C1 as stated fails: a payload whose first entry has a "messaging" key
    (and no "changes" key) but no message object, and a payload whose first
    entry has a "changes" key with a well-formed value.from but no "id",
    both come back as the error envelope, with no message_type at all. *)
Lemma parse_inbound_message_shapes_counterexample :
  (first_entry_has "messaging" delivery_receipt = Ret true /\
   first_entry_has "changes" delivery_receipt = Ret false /\
   parse_inbound_message delivery_receipt =
   Ret (PDict [("ok", PBool false); ("error", PStr "'message'")])) /\
  (first_entry_has "changes" change_without_entry_id = Ret true /\
   parse_inbound_message change_without_entry_id =
   Ret (PDict [("ok", PBool false); ("error", PStr "'id'")])).
Proof. repeat split. Qed.





(** ** The request boundary *)

Section Boundary.

Variable env : environment.
Variable self : config.

Lemma send_rest_request_run (method endpoint : string)
    (params data headers json_body : pyval) (s : state) :
  send_rest_request env self method endpoint params data headers json_body s =
  (rest_result self (net env (length (sent s))),
   logged (rest_call self method endpoint params data headers json_body) s).
Proof.
  unfold send_rest_request, rest_result, rest_call, logged, mtry, mbind, perform, lift.
  destruct (net env (length (sent s))) as [r | e].
  - cbn [rtry rbind]. destruct (raise_for_status r) as [[] | e'] eqn:Hs.
    + cbn [rbind]. destruct (nonempty (content r)).
      * destruct (response_json r) as [v | e] eqn:Hj; cbn [rtry]; [reflexivity |].
        unfold response_json in Hj. destruct (json r); inversion Hj; subst.
        unfold mret, lift, mbind. reflexivity.
      * reflexivity.
    + unfold raise_for_status in Hs. destruct (is_error_status r) eqn:He; inversion Hs; subst.
      cbn [rbind rtry]. unfold mbind, lift, mret.
      destruct (error_details_of (Some r)); reflexivity.
  - cbn [rtry]. destruct e; try reflexivity.
    unfold mbind, lift, mret. destruct (error_details_of resp); reflexivity.
Qed.

(** A timeout of the transport becomes the timeout envelope. *)
Lemma rest_result_timeout (msg : string) :
  rest_result self (Failed (Timeout msg)) =
  Ret (PDict [("error", PStr ("Timeout after " ++ str_of_int (timeout self) ++ " seconds"))]).
Proof. reflexivity. Qed.

(** A response with a success status: its decoded body, or the empty dict
    when the body is empty. *)
Lemma rest_result_success (r : response) (v : pyval) :
  is_error_status r = false ->
  (content r <> "" -> json r = inr v -> rest_result self (Responded r) = Ret v) /\
  (content r = "" -> rest_result self (Responded r) = Ret (PDict [])).
Proof.
  intros Hok. unfold rest_result, raise_for_status. rewrite Hok. cbn [rbind]. split.
  - intros Hc Hj. unfold nonempty. destruct (String.eqb_spec (content r) ""); [contradiction |].
    unfold response_json. rewrite Hj. reflexivity.
  - intros ->. reflexivity.
Qed.

(** An error status becomes an envelope whose details are always null:
    the response of an HTTPError is falsy. *)
Lemma rest_result_http_error (r : response) :
  is_error_status r = true ->
  rest_result self (Responded r) =
  Ret (PDict [("error", PStr (error_message r)); ("details", PNone)]).
Proof.
  intros He. unfold rest_result, raise_for_status. rewrite He. cbn [rbind rtry].
  unfold error_details_of, response_truthy. rewrite He. reflexivity.
Qed.

(** The one way out of the boundary: the handler of [RequestException]
    decodes the body of a truthy response attached to the exception, and
    the decoder raises inside the handler. *)
Lemma rest_result_raises (t : transport) (e : exn) :
  rest_result self t = Raise e <->
  exists msg r m,
    t = Failed (RequestException msg (Some r)) /\
    is_error_status r = false /\ content r <> "" /\
    json r = inl m /\ e = RequestException m None.
Proof.
  split.
  - unfold rest_result. destruct t as [r | e0].
    + unfold raise_for_status. destruct (is_error_status r) eqn:He; cbn [rbind rtry].
      * unfold error_details_of, response_truthy. rewrite He. discriminate.
      * destruct (nonempty (content r)); [| discriminate].
        unfold response_json. destruct (json r); cbn [rtry rbind error_details_of];
          discriminate.
    + cbn [rtry]. destruct e0; try discriminate.
      destruct resp as [r |]; cbn [error_details_of]; [| discriminate].
      unfold response_truthy, nonempty.
      destruct (is_error_status r) eqn:He; cbn [negb andb]; [discriminate |].
      destruct (String.eqb_spec (content r) "") as [Hc | Hc]; cbn [negb]; [discriminate |].
      unfold response_json. destruct (json r) as [m | v] eqn:Hj; cbn [rbind]; [| discriminate].
      intros [= <-]. exists msg, r, m. auto.
  - intros (msg & r & m & -> & He & Hc & Hj & ->).
    unfold rest_result. cbn [rtry error_details_of]. unfold response_truthy, nonempty.
    rewrite He. destruct (String.eqb_spec (content r) ""); [contradiction |].
    cbn [negb andb]. unfold response_json. rewrite Hj. reflexivity.
Qed.

End Boundary.

(** C3 at its failing input: after a redirect loop, [send_rest_request]
    raises the decoder's exception to its caller instead of returning an
    error envelope. *)
Theorem send_rest_request_raises_after_redirect_loop :
  fst (send_rest_request redirect_loop (example_config "T") "GET" "me"
         (PDict [("access_token", PStr "PAGETOKEN")]) PNone PNone PNone initial) =
  Raise (RequestException "Expecting value: line 1 column 1 (char 0)" None).
Proof. reflexivity. Qed.

(** The request boundary, case by case: what [send_rest_request] returns
    for a timeout, for a response with a success status (its decoded body,
    or the empty dict for an empty body) and for an error status; and the
    only way it raises: a request exception that carries a truthy response
    whose non-empty body does not decode. *)
Theorem send_rest_request_boundary :
  forall (env : environment) (self : config) (method endpoint : string)
         (params data headers json_body : pyval) (s : state),
    let t := net env (length (sent s)) in
    let result :=
      fst (send_rest_request env self method endpoint params data headers json_body s) in
    (forall msg, t = Failed (Timeout msg) ->
       result = Ret (PDict [("error", PStr ("Timeout after " ++ str_of_int (timeout self)
                                            ++ " seconds")%string)])) /\
    (forall r v, t = Responded r -> is_error_status r = false ->
       content r <> ""%string -> json r = inr v -> result = Ret v) /\
    (forall r, t = Responded r -> is_error_status r = false ->
       content r = ""%string -> result = Ret (PDict [])) /\
    (forall r, t = Responded r -> is_error_status r = true ->
       result = Ret (PDict [("error", PStr (error_message r)); ("details", PNone)])) /\
    (forall e, result = Raise e <->
       exists msg r m,
         t = Failed (RequestException msg (Some r)) /\
         is_error_status r = false /\ content r <> ""%string /\
         json r = inl m /\ e = RequestException m None).
Proof.
  intros env self method endpoint params data headers json_body s t result.
  subst t result. rewrite send_rest_request_run. cbn [fst].
  split; [| split; [| split; [| split]]].
  - intros msg ->. apply rest_result_timeout.
  - intros r v -> Hok Hc Hj. apply (proj1 (rest_result_success self r v Hok)); assumption.
  - intros r -> Hok Hc. apply (proj2 (rest_result_success self r PNone Hok)); assumption.
  - intros r -> He. apply rest_result_http_error. exact He.
  - intros e. apply rest_result_raises.
Qed.

Lemma send_rest_request_boundary_witness :
  fst (send_rest_request unreachable (example_config "T") "GET" "me"
         (PDict [("access_token", PStr "PAGETOKEN")]) PNone PNone PNone initial)
  = Ret (PDict [("error", PStr "Timeout after 10 seconds")]).
Proof.
  apply (proj1 (send_rest_request_boundary unreachable (example_config "T") "GET" "me"
                  (PDict [("access_token", PStr "PAGETOKEN")]) PNone PNone PNone initial)
               "HTTPSConnectionPool: Read timed out.").
  reflexivity.
Defined.

(** ** MIME classification *)



Lemma category_classify (detected : option string) (file_type : string) :
  category_of detected file_type ->
  classify detected = PDict [("file_type", PStr file_type); ("mime", opt_str detected)].
Proof.
  destruct detected as [m |]; cbn [category_of].
  2: { intros ->. reflexivity. }
  intros [[-> H] | [[-> H] | [[-> H] | [[-> H] | [-> H]]]]].
  1-4: cbn [In] in H;
       repeat (destruct H as [<- | H]; [reflexivity |]); contradiction.
  unfold classify, mime_in.
  assert (N : forall l, incl l (image_types ++ document_types ++ audio_types ++ video_types)
                        -> existsb (String.eqb m) l = false).
  { intros l Hl. destruct (existsb (String.eqb m) l) eqn:E; [| reflexivity].
    exfalso. apply H. apply Hl. apply existsb_eqb_In. exact E. }
  rewrite !N; [reflexivity | | | |];
    intros x Hx; rewrite !in_app_iff; auto.
Qed.

Lemma probe_run (env : environment) (url : pyval) (s : state) :
  probe env url s =
  (match net env (length (sent s)) with
   | Responded r => Ret (Some (content_type r))
   | Failed e => if is_request_exception e then Ret None else Raise e
   end, logged (Head url) s).
Proof.
  unfold probe, mtry, mbind, perform, logged.
  destruct (net env (length (sent s))) as [r | e]; [reflexivity |].
  destruct (is_request_exception e); reflexivity.
Qed.

Lemma get_mime_type_run (env : environment) (file_path : option string) (url : pyval)
    (mime_type : option string) (s : state) :
  get_mime_type env file_path url mime_type s =
  if truthy (opt_str file_path) || negb (truthy url)
  then (Ret (classify (unprobed_mime env file_path mime_type)), s)
  else (match net env (length (sent s)) with
        | Responded r => Ret (classify (content_type r))
        | Failed e => if is_request_exception e then Ret PNone else Raise e
        end, logged (Head url) s).
Proof.
  unfold get_mime_type, unprobed_mime.
  destruct file_path as [path |]; cbn [opt_str].
  - destruct (truthy (PStr path)); cbn [orb]; [reflexivity |].
    destruct (truthy url); cbn [negb]; [| reflexivity].
    unfold mbind. rewrite probe_run.
    destruct (net env (length (sent s))) as [r | e]; [reflexivity |].
    destruct (is_request_exception e); reflexivity.
  - cbn [truthy orb]. destruct (truthy url); cbn [negb]; [| reflexivity].
    unfold mbind. rewrite probe_run.
    destruct (net env (length (sent s))) as [r | e]; [reflexivity |].
    destruct (is_request_exception e); reflexivity.
Qed.



(** ** Downloads *)

Section Download.

Variable env : environment.

Lemma download_file_run (url : string) (s : state) :
  download_file env url s =
  match net env (length (sent s)) with
  | Failed _ => (Ret PNone, logged (Head (PStr url)) s)
  | Responded r =>
      match probed_extension env r with
      | Some ext =>
          if truthy (PStr ext)
          then mtry (fetch_and_store env url ext) (fun _ => mret PNone)
                    (logged (Head (PStr url)) s)
          else (Ret PNone, logged (Head (PStr url)) s)
      | None => (Ret PNone, logged (Head (PStr url)) s)
      end
  end.
Proof.
  unfold download_file, mtry, mbind, perform, logged.
  destruct (net env (length (sent s))) as [r | e]; [| reflexivity].
  unfold probed_extension.
  destruct (guess_extension env _) as [ext |]; cbn [opt_str]; [| reflexivity].
  destruct (truthy (PStr ext)); cbn [negb]; reflexivity.
Qed.

Lemma download_file_returns (url : string) (s : state) :
  exists v, fst (download_file env url s) = Ret v.
Proof.
  unfold download_file, mtry.
  match goal with |- context [match ?b with _ => _ end] => destruct b as [[v | e] s'] end;
    eexists; reflexivity.
Qed.

End Download.

(** C8. [download_file] probes the URL with HEAD; when no extension comes
    out of the probed Content-Type it returns null with the HEAD as its only
    call, no GET; an exception at any step (the probe, the GET, the
    streaming of the body, saving the file, resolving its URL) gives null;
    and the function always returns, it never raises. *)
Theorem download_file_unavailable :
  forall (env : environment) (url : string) (s : state),
    let n := length (sent s) in
    let result := fst (download_file env url s) in
    (forall r, net env n = Responded r ->
               truthy (opt_str (probed_extension env r)) = false ->
               download_file env url s = (Ret PNone, logged (Head (PStr url)) s)) /\
    (forall e, net env n = Failed e -> result = Ret PNone) /\
    (forall r ext,
        net env n = Responded r -> probed_extension env r = Some ext -> ext <> "" ->
        (forall e, net env (S n) = Failed e -> result = Ret PNone) /\
        (forall r',
            net env (S n) = Responded r' -> status_code r' = 200%Z ->
            (forall msg, chunk_fault r' = Some msg -> result = Ret PNone) /\
            (forall file_bytes,
                read_chunks r' = Ret file_bytes ->
                (forall e, save_file env (output_path env s ext) file_bytes = Some e ->
                           result = Ret PNone) /\
                (forall e, save_file env (output_path env s ext) file_bytes = None ->
                           get_file_url env (output_path env s ext) = Raise e ->
                           result = Ret PNone)))) /\
    (exists v, result = Ret v).
Proof.
  intros env url s n result. subst n result.
  split; [| split; [| split]].
  - intros r Hr Hext. rewrite download_file_run, Hr.
    destruct (probed_extension env r) as [ext |]; [| reflexivity].
    cbn [opt_str] in Hext. rewrite Hext. reflexivity.
  - intros e He. rewrite download_file_run, He. reflexivity.
  - intros r ext Hr Hext Hne. rewrite download_file_run, Hr, Hext.
    assert (Ht : truthy (PStr ext) = true).
    { cbn [truthy]. destruct (String.eqb_spec ext ""); [contradiction | reflexivity]. }
    rewrite Ht. unfold mtry, fetch_and_store, mbind, draw, perform, logged.
    cbn [sent stored draws]. rewrite length_app, Nat.add_1_r. split.
    + intros e He. rewrite He. reflexivity.
    + intros r' Hr' Hstatus. rewrite Hr', Hstatus. cbn [Z.eqb Pos.eqb].
      unfold lift. split.
      * intros msg Hfault. unfold read_chunks. rewrite Hfault. reflexivity.
      * intros file_bytes Hbytes. rewrite Hbytes. unfold save, output_path.
        cbn [sent stored draws]. split.
        -- intros e He. rewrite He. reflexivity.
        -- intros e Hs He. rewrite Hs, He. reflexivity.
  - apply download_file_returns.
Qed.

Lemma download_file_unavailable_witness :
  download_file (environment_of (fun _ => Responded opaque_page))
                "https://cdn.example/blob" initial
  = (Ret PNone, mkState [Head (PStr "https://cdn.example/blob")] [] 0).
Proof.
  apply (proj1 (download_file_unavailable (environment_of (fun _ => Responded opaque_page))
                  "https://cdn.example/blob" initial) opaque_page); reflexivity.
Defined.

(** ** Runs against a scripted environment *)

Lemma logged_all_nil (s : state) : logged_all [] s = s.
Proof. destruct s. unfold logged_all. cbn. rewrite app_nil_r. reflexivity. Qed.

Lemma logged_all_cons (c : call) (cs : list call) (s : state) :
  logged_all cs (logged c s) = logged_all (c :: cs) s.
Proof. unfold logged_all, logged. cbn. rewrite <- app_assoc. reflexivity. Qed.

Lemma logged_all_app (cs cs' : list call) (s : state) :
  logged_all cs' (logged_all cs s) = logged_all (cs ++ cs') s.
Proof. unfold logged_all. cbn. rewrite <- app_assoc. reflexivity. Qed.

Lemma logged_length (c : call) (s : state) :
  length (sent (logged c s)) = S (length (sent s)).
Proof. unfold logged. cbn. rewrite length_app. cbn. lia. Qed.

Lemma scripted_head env k t answers : scripted env k (t :: answers) -> net env k = t.
Proof. intros H. rewrite <- (H 0 t eq_refl). f_equal. lia. Qed.

Lemma scripted_tail env k t answers :
  scripted env k (t :: answers) -> scripted env (S k) answers.
Proof.
  intros H i t' Hi. rewrite <- (H (S i) t' Hi). f_equal. lia.
Qed.

Lemma scripted_app env k answers answers' :
  scripted env k (answers ++ answers') ->
  scripted env k answers /\ scripted env (k + length answers) answers'.
Proof.
  intros H. split.
  - intros i t Hi. apply H. rewrite nth_error_app1; [exact Hi |].
    apply nth_error_Some. congruence.
  - intros i t Hi. rewrite <- Nat.add_assoc. apply H.
    rewrite nth_error_app2 by lia. rewrite Nat.add_comm, Nat.add_sub. exact Hi.
Qed.

Lemma script_scripted (answers : list transport) : scripted (script answers) 0 answers.
Proof.
  intros i t Hi. cbn. apply nth_error_nth. exact Hi.
Qed.

(** ** Pagination *)

Section Pagination.

Variable env : environment.
Variable self : config.




End Pagination.


Lemma first_page_linked : linked first_page.
Proof.
  split.
  - split; [reflexivity |]. split; [reflexivity |]. eexists. split; reflexivity.
  - eexists. split; [reflexivity | discriminate].
Defined.


Lemma first_page_returned :
  returned (example_config "T") [ok_json (body first_page)] (map body [first_page]).
Proof. constructor; [reflexivity | constructor]. Defined.


(** ** Batch uploads *)

Lemma collect_id_dict (response : pyval) (ids : list pyval) :
  is_dict response ->
  collect_id response ids = Ret (ids ++ uploaded_ids [response])%list.
Proof.
  intros [d ->]. unfold collect_id, uploaded_ids. cbn [contains rbind filter succeeded].
  destruct (has_key "error" d); cbn [negb map]; [rewrite app_nil_r |]; reflexivity.
Qed.

Lemma uploaded_ids_cons (r : pyval) (rs : list pyval) :
  uploaded_ids (r :: rs) = (uploaded_ids [r] ++ uploaded_ids rs)%list.
Proof.
  unfold uploaded_ids. cbn [filter]. destruct (succeeded r); reflexivity.
Qed.

Section Images.

Variable env : environment.
Variable self : config.

Lemma post_to_feed_run (caption : string) (ids : list pyval) (s : state) :
  post_to_feed env self caption ids s =
  (rest_result self (net env (length (sent s))), logged (feed_post self caption ids) s).
Proof. unfold post_to_feed. rewrite send_rest_request_run. reflexivity. Qed.

Lemma upload_images_run (image_urls : list string) :
  forall (answers : list transport) (responses ids : list pyval) (s : state),
    scripted env (length (sent s)) answers ->
    returned self answers responses ->
    length responses = length image_urls ->
    Forall is_dict responses ->
    upload_images env self image_urls ids s =
    (Ret (ids ++ uploaded_ids responses)%list,
     logged_all (map (photo_upload self) image_urls) s).
Proof.
  induction image_urls as [| image_url rest IH];
    intros answers responses ids s Hscript Hret Hlen Hdict.
  - destruct responses; [| discriminate Hlen].
    cbn. rewrite app_nil_r, logged_all_nil. reflexivity.
  - destruct responses as [| r responses]; [discriminate Hlen |].
    inversion Hret as [| t ? answers' ? Ht Hrest]; subst.
    inversion Hdict as [| ? ? Hr Hdict']; subst.
    cbn [upload_images]. unfold mbind at 1.
    rewrite send_rest_request_run, (scripted_head _ _ _ _ Hscript), Ht.
    unfold mbind at 1. unfold lift at 1. rewrite (collect_id_dict r ids Hr).
    fold (photo_upload self image_url).
    erewrite (IH answers' responses); eauto.
    + rewrite logged_all_cons, (uploaded_ids_cons r responses), app_assoc. reflexivity.
    + rewrite logged_length. eapply scripted_tail; eassumption.
Qed.

Lemma upload_videos_run (title : string) (video_urls : list string) :
  forall (answers : list transport) (responses ids : list pyval) (s : state),
    scripted env (length (sent s)) answers ->
    returned self answers responses ->
    length responses = length video_urls ->
    Forall is_dict responses ->
    upload_videos env self title video_urls ids s =
    (Ret (ids ++ uploaded_ids responses)%list,
     logged_all (map (video_upload self title) video_urls) s).
Proof.
  induction video_urls as [| video_url rest IH];
    intros answers responses ids s Hscript Hret Hlen Hdict.
  - destruct responses; [| discriminate Hlen].
    cbn. rewrite app_nil_r, logged_all_nil. reflexivity.
  - destruct responses as [| r responses]; [discriminate Hlen |].
    inversion Hret as [| t ? answers' ? Ht Hrest]; subst.
    inversion Hdict as [| ? ? Hr Hdict']; subst.
    cbn [upload_videos]. unfold mbind at 1.
    rewrite send_rest_request_run, (scripted_head _ _ _ _ Hscript), Ht.
    unfold mbind at 1. unfold lift at 1. rewrite (collect_id_dict r ids Hr).
    erewrite (IH answers' responses); eauto.
    + rewrite logged_all_cons, (uploaded_ids_cons r responses), app_assoc. reflexivity.
    + rewrite logged_length. eapply scripted_tail; eassumption.
Qed.

End Images.

(** C6. [post_images_to_page] issues one upload per image URL, in order,
    whatever the earlier ones answered.  When every upload's response (an
    object) has an "error" key, the call returns
    {"error": "Failed to upload any images"} and the uploads are its only
    requests; otherwise it then issues the feed post with the media ids of
    exactly the uploads whose response has no "error" key, in upload order,
    and returns what that post gives. *)
Theorem post_images_to_page_skips_failures :
  forall (env : environment) (self : config) (image_urls : list string)
         (caption : string) (s : state) (answers : list transport)
         (responses : list pyval),
    scripted env (length (sent s)) answers ->
    returned self answers responses ->
    length responses = length image_urls ->
    Forall is_dict responses ->
    let uploads := map (photo_upload self) image_urls in
    let ids := uploaded_ids responses in
    (ids = [] ->
     post_images_to_page env self image_urls caption s =
     (Ret (PDict [("error", PStr "Failed to upload any images")]),
      logged_all uploads s)) /\
    (ids <> [] ->
     post_images_to_page env self image_urls caption s =
     (Ret (feed_result self (net env (length (sent s) + length image_urls))),
      logged_all (uploads ++ [feed_post self caption ids]) s)).
Proof.
  intros env self image_urls caption s answers responses Hscript Hret Hlen Hdict
         uploads ids. subst uploads ids.
  unfold post_images_to_page, mtry, mbind.
  rewrite (upload_images_run env self image_urls answers responses [] s)
    by assumption.
  cbn [app]. split.
  - intros ->. reflexivity.
  - intros Hids. destruct (uploaded_ids responses) as [| i ids] eqn:E; [contradiction |].
    cbn [truthy negb]. rewrite post_to_feed_run.
    unfold logged_all at 1. cbn [sent]. rewrite length_app, length_map.
    unfold feed_result.
    destruct (rest_result self (net env (length (sent s) + length image_urls)));
      unfold logged, logged_all, mret, internal_error; cbn [sent stored draws];
      rewrite <- app_assoc; reflexivity.
Qed.

Lemma three_uploads_returned :
  returned (example_config "T") [upload_ok "m1"; upload_rejected; upload_ok "m3"]
           [PDict [("id", PStr "m1")];
            PDict [("error", PStr "400 Client Error: Bad Request"); ("details", PNone)];
            PDict [("id", PStr "m3")]].
Proof. repeat constructor. Defined.

Lemma three_uploads_scripted :
  scripted (script three_uploads) 0 [upload_ok "m1"; upload_rejected; upload_ok "m3"].
Proof.
  apply (proj1 (scripted_app (script three_uploads) 0
                  [upload_ok "m1"; upload_rejected; upload_ok "m3"] [upload_ok "post1"]
                  (script_scripted three_uploads))).
Defined.

Lemma post_images_to_page_skips_failures_witness :
  post_images_to_page (script three_uploads) (example_config "T")
    ["https://cdn.example/1.png"; "https://cdn.example/2.png"; "https://cdn.example/3.png"]
    "Holiday" initial
  = (Ret (PDict [("id", PStr "post1")]),
     logged_all
       (map (photo_upload (example_config "T"))
            ["https://cdn.example/1.png"; "https://cdn.example/2.png";
             "https://cdn.example/3.png"]
        ++ [feed_post (example_config "T") "Holiday" [PStr "m1"; PStr "m3"]])
       initial).
Proof.
  apply (proj2 (post_images_to_page_skips_failures
                  (script three_uploads) (example_config "T")
                  ["https://cdn.example/1.png"; "https://cdn.example/2.png";
                   "https://cdn.example/3.png"]
                  "Holiday" initial _ _
                  three_uploads_scripted three_uploads_returned eq_refl
                  (Forall_cons _ (ex_intro _ _ eq_refl)
                     (Forall_cons _ (ex_intro _ _ eq_refl)
                        (Forall_cons _ (ex_intro _ _ eq_refl) (Forall_nil _)))))).
  discriminate.
Defined.

(** The video batch follows the same policy as the image batch: one
    upload per URL, failed uploads skipped, the feed post issued with the ids
    of the others, and {"error": "Failed to upload any videos"} without a
    feed post when there is none. *)
Theorem post_videos_to_page_skips_failures :
  forall (env : environment) (self : config) (title caption : string)
         (video_urls : list string) (s : state) (answers : list transport)
         (responses : list pyval),
    scripted env (length (sent s)) answers ->
    returned self answers responses ->
    length responses = length video_urls ->
    Forall is_dict responses ->
    let uploads := map (video_upload self title) video_urls in
    let ids := uploaded_ids responses in
    (ids = [] ->
     post_videos_to_page env self title caption video_urls s =
     (Ret (PDict [("error", PStr "Failed to upload any videos")]),
      logged_all uploads s)) /\
    (ids <> [] ->
     post_videos_to_page env self title caption video_urls s =
     (Ret (feed_result self (net env (length (sent s) + length video_urls))),
      logged_all (uploads ++ [feed_post self caption ids]) s)).
Proof.
  intros env self title caption video_urls s answers responses Hscript Hret Hlen Hdict
         uploads ids. subst uploads ids.
  unfold post_videos_to_page, mtry, mbind.
  rewrite (upload_videos_run env self title video_urls answers responses [] s)
    by assumption.
  cbn [app]. split.
  - intros ->. reflexivity.
  - intros Hids. destruct (uploaded_ids responses) as [| i ids] eqn:E; [contradiction |].
    cbn [truthy negb]. rewrite post_to_feed_run.
    unfold logged_all at 1. cbn [sent]. rewrite length_app, length_map.
    unfold feed_result.
    destruct (rest_result self (net env (length (sent s) + length video_urls)));
      unfold logged, logged_all, mret, internal_error; cbn [sent stored draws];
      rewrite <- app_assoc; reflexivity.
Qed.

Lemma rejected_upload_returned :
  returned (example_config "T") [upload_rejected]
           [PDict [("error", PStr "400 Client Error: Bad Request"); ("details", PNone)]].
Proof. repeat constructor. Defined.

Lemma post_videos_to_page_skips_failures_witness :
  post_videos_to_page (script [upload_rejected]) (example_config "T") "Clip" "Watch this"
                      ["https://cdn.example/clip.mp4"] initial
  = (Ret (PDict [("error", PStr "Failed to upload any videos")]),
     logged_all [video_upload (example_config "T") "Clip" "https://cdn.example/clip.mp4"]
                initial).
Proof.
  apply (proj1 (post_videos_to_page_skips_failures
                  (script [upload_rejected]) (example_config "T") "Clip" "Watch this"
                  ["https://cdn.example/clip.mp4"] initial _ _
                  (script_scripted [upload_rejected]) rejected_upload_returned eq_refl
                  (Forall_cons _ (ex_intro _ _ eq_refl) (Forall_nil _)))).
  reflexivity.
Defined.

(** ** Permalinks *)

(** [share_facebook_post] asks for the permalink of the post with the page
    token; a response object with a "permalink_url" gives the success
    payload with that URL, one without it gives the error payload with the
    response's "error", or "Unknown error". *)
Theorem share_facebook_post_permalink :
  forall (env : environment) (self : config) (post_id : string) (s : state)
         (d : list (string * pyval)),
    rest_result self (net env (length (sent s))) = Ret (PDict d) ->
    snd (share_facebook_post env self post_id s) =
    logged (rest_call self "GET" post_id
                      (PDict [("fields", PStr "permalink_url");
                              ("access_token", PStr (access_token self))])
                      PNone PNone PNone) s /\
    (forall link,
        lookup "permalink_url" d = Some link ->
        fst (share_facebook_post env self post_id s) =
        Ret (PDict [("status", PStr "success"); ("data", link)])) /\
    (lookup "permalink_url" d = None ->
     fst (share_facebook_post env self post_id s) =
     Ret (PDict [("status", PStr "error");
                 ("message", dict_get d "error" (PStr "Unknown error"))])).
Proof.
  intros env self post_id s d Hnet.
  assert (Hrun :
    share_facebook_post env self post_id s =
    (Ret match lookup "permalink_url" d with
         | Some link => PDict [("status", PStr "success"); ("data", link)]
         | None => PDict [("status", PStr "error");
                          ("message", dict_get d "error" (PStr "Unknown error"))]
         end,
     logged (rest_call self "GET" post_id
                       (PDict [("fields", PStr "permalink_url");
                               ("access_token", PStr (access_token self))])
                       PNone PNone PNone) s)).
  { unfold share_facebook_post, mbind at 1. rewrite send_rest_request_run, Hnet.
    unfold mbind, lift, mret. cbn [contains getitem get]. unfold has_key.
    destruct (lookup "permalink_url" d); reflexivity. }
  rewrite Hrun. cbn [fst snd]. split; [reflexivity |]. split.
  - intros link ->. reflexivity.
  - intros ->. reflexivity.
Qed.

Lemma share_facebook_post_permalink_witness :
  fst (share_facebook_post
         (script [ok_json (PDict [("permalink_url", PStr "https://fb.example/p/1");
                                  ("id", PStr "1")])])
         (example_config "T") "1" initial)
  = Ret (PDict [("status", PStr "success"); ("data", PStr "https://fb.example/p/1")]).
Proof.
  apply (proj1 (proj2 (share_facebook_post_permalink
                         (script [ok_json (PDict [("permalink_url",
                                                   PStr "https://fb.example/p/1");
                                                  ("id", PStr "1")])])
                         (example_config "T") "1" initial
                         [("permalink_url", PStr "https://fb.example/p/1");
                          ("id", PStr "1")]
                         eq_refl))).
  reflexivity.
Defined.

(** ** Mixed media batches *)

Section Media.

Variable env : environment.
Variable self : config.

Lemma upload_media_skipped media answers calls (media_ids : list pyval) (s : state) :
  skipped media answers calls ->
  scripted env (length (sent s)) answers ->
  upload_media env self media media_ids s = (Ret media_ids, logged_all calls s).
Proof.
  intros H Hscript. unfold upload_media.
  destruct H as [d Hurl | d e Hurl He | d r file_type Hurl Hcat Himage Hvideo];
    unfold mbind at 1; unfold lift at 1; rewrite get_dict;
    unfold mbind at 1; rewrite get_mime_type_run; cbn [opt_str truthy orb]; rewrite Hurl;
    cbn [negb].
  - cbn. rewrite logged_all_nil. reflexivity.
  - rewrite (scripted_head _ _ _ _ Hscript), He. reflexivity.
  - rewrite (scripted_head _ _ _ _ Hscript), (category_classify _ _ Hcat).
    unfold mbind, lift. cbn [truthy get dict_get lookup String.eqb Ascii.eqb Bool.eqb].
    unfold upload_target. cbn [eq_str].
    apply String.eqb_neq in Himage, Hvideo. rewrite Himage, Hvideo. reflexivity.
Qed.

Lemma upload_media_failed media answers calls (media_ids : list pyval) (s : state) :
  failed self media answers calls ->
  scripted env (length (sent s)) answers ->
  upload_media env self media media_ids s = (Ret media_ids, logged_all calls s).
Proof.
  intros H Hscript. unfold upload_media.
  destruct H as [d r file_type t response Hurl Hcat Hkind Ht Herr].
  unfold mbind at 1; unfold lift at 1; rewrite get_dict;
    unfold mbind at 1; rewrite get_mime_type_run; cbn [opt_str truthy orb]; rewrite Hurl;
    cbn [negb].
  rewrite (scripted_head _ _ _ _ Hscript), (category_classify _ _ Hcat).
  apply scripted_tail, scripted_head in Hscript.
  unfold mbind at 1. unfold lift at 1.
  cbn [truthy get dict_get lookup String.eqb Ascii.eqb Bool.eqb].
  unfold upload_target, media_upload. cbn [eq_str].
  destruct Hkind as [-> | ->]; cbn [String.eqb Ascii.eqb Bool.eqb];
    unfold mbind; rewrite send_rest_request_run, logged_length, Hscript, Ht;
    unfold lift, collect_id; rewrite Herr; cbn [rbind];
    rewrite <- logged_all_cons, <- (logged_all_cons _ []), logged_all_nil; reflexivity.
Qed.

Lemma upload_medias_fruitless media_urls answers calls :
  fruitless self media_urls answers calls ->
  forall (media_ids : list pyval) (s : state),
    scripted env (length (sent s)) answers ->
    upload_medias env self media_urls media_ids s = (Ret media_ids, logged_all calls s).
Proof.
  induction 1 as [| media media_urls answers answers' calls calls' Hmedia Hrest IH];
    intros media_ids s Hscript.
  - cbn. rewrite logged_all_nil. reflexivity.
  - apply scripted_app in Hscript. destruct Hscript as [Hhere Hthen].
    cbn [upload_medias]. unfold mbind.
    assert (Hstep : upload_media env self media media_ids s =
                    (Ret media_ids, logged_all calls s)).
    { destruct Hmedia;
        [apply upload_media_skipped with (answers := answers)
        | apply upload_media_failed with (answers := answers)];
        assumption. }
    rewrite Hstep, IH.
    + rewrite logged_all_app. reflexivity.
    + assert (Hlen : length calls = length answers).
      { destruct Hmedia as [[] | []]; reflexivity. }
      unfold logged_all. cbn [sent]. rewrite length_app, Hlen. exact Hthen.
Qed.

End Media.

Lemma skipped_probes_only media answers calls :
  skipped media answers calls -> existsb is_request calls = false.
Proof. destruct 1; reflexivity. Qed.

Lemma fruitless_no_feed_post self media_urls answers calls :
  fruitless self media_urls answers calls -> existsb carries_json calls = false.
Proof.
  induction 1 as [| media media_urls answers answers' calls calls' Hmedia Hrest IH];
    [reflexivity |].
  rewrite existsb_app, IH, orb_false_r.
  destruct Hmedia as [[] | []]; try reflexivity.
  unfold media_upload. destruct (String.eqb file_type "video"); reflexivity.
Qed.

(** C10. In [post_media_to_page], an entry whose URL is classified neither
    as an image nor as a video (no URL, a probe that raises a request
    exception and so gives null, or any other type) is skipped: the media ids
    are unchanged and no request besides the probe is issued for it.  When
    every entry is skipped or its upload's response has an "error" key, the
    call returns {"error": "No valid media uploaded"} and issues no feed
    post. *)
Theorem post_media_to_page_skips_unsupported :
  forall (env : environment) (self : config) (caption : string) (s : state),
    (forall media answers calls media_ids,
        skipped media answers calls ->
        scripted env (length (sent s)) answers ->
        upload_media env self media media_ids s = (Ret media_ids, logged_all calls s) /\
        existsb is_request calls = false) /\
    (forall media_urls answers calls,
        fruitless self media_urls answers calls ->
        scripted env (length (sent s)) answers ->
        post_media_to_page env self caption media_urls s =
        (Ret (PDict [("error", PStr "No valid media uploaded")]), logged_all calls s) /\
        existsb carries_json calls = false /\
        forall ids, ~ In (feed_post self caption ids) calls).
Proof.
  intros env self caption s. split.
  - intros media answers calls media_ids Hskip Hscript. split.
    + apply upload_media_skipped with (answers := answers); assumption.
    + eapply skipped_probes_only; eassumption.
  - intros media_urls answers calls Hall Hscript.
    pose proof (fruitless_no_feed_post self media_urls answers calls Hall) as Hnone.
    split; [| split; [exact Hnone |]].
    + unfold post_media_to_page, mtry, mbind.
      rewrite (upload_medias_fruitless env self media_urls answers calls Hall [] s Hscript).
      reflexivity.
    + intros ids Hin.
      assert (Hsome : existsb carries_json calls = true)
        by (apply existsb_exists; eexists; split; [exact Hin | reflexivity]).
      congruence.
Qed.

Lemma mixed_batch_fruitless :
  fruitless (example_config "T") mixed_batch mixed_answers mixed_calls.
Proof.
  apply (fruitless_cons (example_config "T") _ _ [Responded pdf_page] _
                        [Head (PStr "https://cdn.example/terms.pdf")]).
  { left. apply (skipped_other_type [("url", PStr "https://cdn.example/terms.pdf")]
                                    pdf_page "document"); try reflexivity;
      try discriminate.
    right; left. split; [reflexivity |]. left. reflexivity. }
  apply (fruitless_cons (example_config "T") _ _ [Responded png_page; upload_rejected] []
                        [Head (PStr "https://cdn.example/a.png");
                         media_upload (example_config "T") "image"
                                      (PStr "https://cdn.example/a.png")] []).
  { right. eapply (failed_upload _ [("url", PStr "https://cdn.example/a.png")]
                                 png_page "image" upload_rejected); try reflexivity.
    - left. split; [reflexivity |]. right; left. reflexivity.
    - left. reflexivity. }
  apply (fruitless_cons (example_config "T") _ _ [] [] [] []).
  { left. apply (skipped_without_url [("name", PStr "no url here")]). reflexivity. }
  constructor.
Defined.

Lemma post_media_to_page_skips_unsupported_witness :
  post_media_to_page (script mixed_answers) (example_config "T") "Launch" mixed_batch
                     initial
  = (Ret (PDict [("error", PStr "No valid media uploaded")]),
     logged_all mixed_calls initial) /\
  existsb carries_json mixed_calls = false.
Proof.
  destruct (proj2 (post_media_to_page_skips_unsupported
                     (script mixed_answers) (example_config "T") "Launch" initial)
                  mixed_batch mixed_answers mixed_calls
                  mixed_batch_fruitless (script_scripted mixed_answers))
    as (Hresult & Hnone & _).
  exact (conj Hresult Hnone).
Defined.

(** ** Credentials *)

Section Issues.

Context {A B : Type}.
Variable P : call -> Prop.






End Issues.





Section Discipline.

Variable env : environment.
Variable self : config.









End Discipline.




(** * Further properties *)

(** ** Registration and handshake *)

(** [register_session] posts the subscription of the page object to
    {app_id}/subscriptions with the callback URL, the configured fields and
    the configured verify token; a verification request that echoes that
    token with hub.mode "subscribe" is then accepted by
    [parse_verification_request], which returns its challenge. *)
Theorem register_session_then_handshake :
  forall (env : environment) (self : config) (webhook_url : string) (s : state),
  exists body,
    snd (register_session env self webhook_url s) =
    logged (Request "POST" (absolute_url self (app_id self ++ "/subscriptions")%string)
                    (PDict [("access_token", app_credential self)]) PNone
                    (PDict body) PNone (timeout self)) s /\
    dict_get body "object" PNone = PStr "page" /\
    dict_get body "callback_url" PNone = PStr webhook_url /\
    dict_get body "fields" PNone = opt_str (fields self) /\
    dict_get body "include_values" PNone = PStr "true" /\
    forall d challenge,
      dict_get d "hub.mode" PNone = PStr "subscribe" ->
      dict_get d "hub.verify_token" PNone = dict_get body "verify_token" PNone ->
      dict_get d "hub.challenge" PNone = PStr challenge ->
      parse_verification_request self (PDict d) = Ret (PStr challenge).
Proof.
  intros env self webhook_url s. unfold register_session.
  rewrite send_rest_request_run. cbn [snd]. eexists. split; [reflexivity |].
  repeat (split; [reflexivity |]).
  intros d challenge Hmode Htoken Hchallenge.
  rewrite parse_verification_request_dict.
  assert (A : accepted_b self d = true).
  { apply accepted_reflect. split; [exact Hmode | exact Htoken]. }
  rewrite A, Hchallenge. reflexivity.
Qed.

Lemma register_session_then_handshake_witness :
  parse_verification_request (example_config "T") (PDict example_handshake)
  = Ret (PStr "123").
Proof.
  destruct (register_session_then_handshake (script []) (example_config "T")
              "https://agent.example/webhook" initial) as (body & Hcall & _ & _ & _ & _ & H).
  injection Hcall as Hbody. subst body.
  apply (H example_handshake "123"); reflexivity.
Defined.

(** ** What the parser reads *)

Lemma getitem0_not_missing (l : pyval) (k : string) :
  getitem0 l <> Raise (KeyError (repr_str k)).
Proof.
  destruct l; cbn [getitem0]; try discriminate.
  - destruct (chars s); discriminate.
  - destruct l; discriminate.
Qed.

(** Closes a goal about [parse_inbound_message] by following every
    subscript on both sides. *)
Ltac follow_subscripts :=
  repeat match goal with
         | |- context [rbind ?m _] => destruct m; cbn [rbind rtry]
         | |- context [if ?b then _ else _] => destruct b
         end;
  reflexivity.

(** [parse_inbound_message] reads one event: the first entry, its "id",
    and the first element of its "changes" or "messaging" list.  Two payloads
    that agree on these give the same result, up to the raw payload kept
    under "data": further entries of a batched webhook, and further events of
    the first entry, are not looked at. *)
Theorem parse_inbound_message_first_event_only :
  forall request request' entries entries' e e',
    getitem request "entry" = Ret entries ->
    getitem0 entries = Ret (PDict e) ->
    getitem request' "entry" = Ret entries' ->
    getitem0 entries' = Ret (PDict e') ->
    lookup "id" e = lookup "id" e' ->
    first_of (PDict e) "changes" = first_of (PDict e') "changes" ->
    first_of (PDict e) "messaging" = first_of (PDict e') "messaging" ->
    without_data (parse_inbound_message request) =
    without_data (parse_inbound_message request').
Proof.
  intros request request' entries entries' e e' H1 H2 H3 H4 Hid Hc Hm.
  unfold parse_inbound_message, normalized. rewrite H1, H3. cbn [rbind].
  rewrite H2, H4. cbn [rbind getitem contains]. unfold has_key.
  unfold first_of in Hc, Hm. cbn [getitem] in Hc, Hm.
  rewrite Hid. destruct (lookup "id" e'); cbn [rbind rtry]; [| reflexivity].
  destruct (lookup "changes" e) as [l |], (lookup "changes" e') as [l' |];
    cbn [rbind rtry] in *.
  - rewrite Hc. follow_subscripts.
  - exfalso. exact (getitem0_not_missing _ _ Hc).
  - exfalso. symmetry in Hc. exact (getitem0_not_missing _ _ Hc).
  - destruct (lookup "messaging" e) as [m |], (lookup "messaging" e') as [m' |];
      cbn [rbind rtry] in *.
    + rewrite Hm. follow_subscripts.
    + exfalso. exact (getitem0_not_missing _ _ Hm).
    + exfalso. symmetry in Hm. exact (getitem0_not_missing _ _ Hm).
    + reflexivity.
Qed.

Lemma parse_inbound_message_first_event_only_witness :
  without_data (parse_inbound_message batched_webhook) =
  without_data (parse_inbound_message messenger_text).
Proof.
  eapply (parse_inbound_message_first_event_only batched_webhook messenger_text);
    reflexivity.
Defined.

(** ** The configuration panel *)

(** [render] always shows the "Register Webhook" button, keyed by the
    model key; it calls the bridge exactly when the button is clicked, once,
    for the action "register_session" of the module [app_header] gave and
    with empty arguments; and it shows the success message exactly when the
    bridge's result is truthy, the error message exactly when it is not. *)
Theorem render_registers_on_click :
  forall (h : App.host) (agent_id action_id : string) (info : pyval),
    let trace := App.render h agent_id action_id info in
    let model_key := fst (App.app_header h agent_id action_id info) in
    let module_root := snd (App.app_header h agent_id action_id info) in
    let key := (model_key ++ "_btn_register_webhook")%string in
    let clicked := App.button h "Register Webhook" key in
    let result := App.call_action_walker_exec h agent_id module_root "register_session"
                                              (PDict []) in
    In (App.Button "Register Webhook" key) trace /\
    (forall a m act args,
        In (App.WalkerExec a m act args) trace <->
        clicked = true /\
        (a, m, act, args) = (agent_id, module_root, "register_session"%string, PDict [])) /\
    length (filter (fun w => match w with App.WalkerExec _ _ _ _ => true | _ => false end)
                   trace) <= 1 /\
    (forall text,
        In (App.Success text) trace <->
        clicked = true /\ truthy result = true /\
        text = "Webhook registered successfully!"%string) /\
    (forall text,
        In (App.Error text) trace <->
        clicked = true /\ truthy result = false /\
        text = "Failed to register webhook. Please try again."%string).
Proof.
  intros h agent_id action_id info trace model_key module_root key clicked result.
  subst trace model_key module_root key clicked result. unfold App.render.
  destruct (App.app_header h agent_id action_id info) as [model_key module_root].
  cbn [fst snd].
  destruct (App.button h "Register Webhook" (model_key ++ "_btn_register_webhook"));
    [destruct (truthy (App.call_action_walker_exec h agent_id module_root
                         "register_session" (PDict []))) |];
    cbn [app In filter length];
    (split; [tauto |]);
    (split; [intros a m act args; split;
             [intros H; repeat (destruct H as [H | H]; try discriminate H);
              try contradiction; injection H as <- <- <- <-; auto
             | intros [H E]; try discriminate H; injection E as -> -> -> ->; tauto] |]);
    (split; [lia |]);
    split; intros text; split;
      try (intros H; repeat (destruct H as [H | H]; try discriminate H);
           try contradiction; injection H as <-; auto);
      try (intros (H1 & H2 & ->); try discriminate H1; try discriminate H2; tauto).
Qed.

Lemma render_registers_on_click_example :
  App.render (clicking_host (PDict [])) "agent1" "facebook_action" PNone =
  [App.AppHeader "agent1" "facebook_action" PNone;
   App.Expander "Facebook Configuration" false;
   App.AppControls "agent1" "facebook_action";
   App.AppUpdateAction "agent1" "facebook_action";
   App.Expander "Register Webhook" true;
   App.Markdown "### Webhook Registration";
   App.Markdown ("Click the button below to register the webhook. "
                 ++ "This enables your agent to communicate with Facebook.")%string;
   App.Button "Register Webhook" "facebook_action_btn_register_webhook";
   App.WalkerExec "agent1" "actions.facebook_action" "register_session" (PDict []);
   App.Error "Failed to register webhook. Please try again."].
Proof. reflexivity. Qed.

(** Every envelope the request boundary builds for a failure is a
    non-empty dict, hence truthy. *)
Lemma failure_envelope_truthy (self : config) (t : transport) (v : pyval) :
  rest_result self t = Ret v ->
  (exists e, t = Failed e) \/ (exists r, t = Responded r /\ is_error_status r = true) ->
  truthy v = true.
Proof.
  intros Hv [[e ->] | (r & -> & He)].
  - unfold rest_result in Hv. cbn [rtry] in Hv. destruct e;
      try (injection Hv as <-; reflexivity).
    destruct (error_details_of resp); cbn [rbind] in Hv; [| discriminate Hv].
    injection Hv as <-. reflexivity.
  - unfold rest_result, raise_for_status in Hv. rewrite He in Hv. cbn [rbind rtry] in Hv.
    destruct (error_details_of (Some r)); cbn [rbind] in Hv; [| discriminate Hv].
    injection Hv as <-. reflexivity.
Qed.

(** The panel cannot see a failed registration: when the bridge hands back
    what [register_session] returned and the transport failed (a timeout, a
    refused connection, an error status), the result is an error envelope,
    which is truthy, and a click shows the success message. *)
Theorem render_reports_success_on_error_envelope :
  forall (env : environment) (self : config) (webhook_url : string) (s : state)
         (h : App.host) (agent_id action_id : string) (info : pyval) (v : pyval),
    let t := net env (length (sent s)) in
    let model_key := fst (App.app_header h agent_id action_id info) in
    let module_root := snd (App.app_header h agent_id action_id info) in
    (exists e, t = Failed e) \/ (exists r, t = Responded r /\ is_error_status r = true) ->
    fst (register_session env self webhook_url s) = Ret v ->
    App.call_action_walker_exec h agent_id module_root "register_session" (PDict []) = v ->
    App.button h "Register Webhook" (model_key ++ "_btn_register_webhook")%string = true ->
    has_key "error" match v with PDict d => d | _ => [] end = true /\
    In (App.Success "Webhook registered successfully!")
       (App.render h agent_id action_id info).
Proof.
  intros env self webhook_url s h agent_id action_id info v t model_key module_root
         Hfail Hv Hbridge Hclick. subst t model_key module_root.
  unfold register_session in Hv. rewrite send_rest_request_run in Hv. cbn [fst] in Hv.
  pose proof (failure_envelope_truthy self _ v Hv Hfail) as Htruthy. split.
  - destruct Hfail as [[e He] | (r & Hr & He)].
    + rewrite He in Hv. unfold rest_result in Hv. cbn [rtry] in Hv.
      destruct e; try (injection Hv as <-; reflexivity).
      destruct (error_details_of resp); cbn [rbind] in Hv; [| discriminate Hv].
      injection Hv as <-. reflexivity.
    + rewrite Hr in Hv. unfold rest_result, raise_for_status in Hv. rewrite He in Hv.
      cbn [rbind rtry] in Hv.
      destruct (error_details_of (Some r)); cbn [rbind] in Hv; [| discriminate Hv].
      injection Hv as <-. reflexivity.
  - unfold App.render.
    destruct (App.app_header h agent_id action_id info) as [model_key module_root].
    cbn [fst snd] in *. rewrite Hclick, Hbridge, Htruthy.
    apply in_or_app. right. right. left. reflexivity.
Qed.

Lemma render_reports_success_on_error_envelope_witness :
  In (App.Success "Webhook registered successfully!")
     (App.render (clicking_host (PDict [("error", PStr "Timeout after 10 seconds")]))
                 "agent1" "facebook_action" PNone).
Proof.
  apply (render_reports_success_on_error_envelope
           unreachable (example_config "T") "https://agent.example/webhook" initial
           (clicking_host (PDict [("error", PStr "Timeout after 10 seconds")]))
           "agent1" "facebook_action" PNone
           (PDict [("error", PStr "Timeout after 10 seconds")])).
  - left. eexists. reflexivity.
  - reflexivity.
  - reflexivity.
  - reflexivity.
Defined.

(** ** Operations and the request boundary *)

(** Where a failure of the request boundary ends up.  A single-request
    operation returns what [send_rest_request] gives, unchanged, so it raises
    when the boundary raises; the three batch uploads and [list_all_pages]
    wrap their body in a handler and never raise; [share_facebook_post] has
    no handler either, and raises when the boundary raises or when the
    response does not support the test for "permalink_url". *)
Theorem operations_at_the_boundary :
  forall (env : environment) (self : config) (op : operation) (s : state),
    let answer := rest_result self (net env (length (sent s))) in
    (passes_through op = true ->
     outcome env self op s =
     match answer with Ret v => Ret (Some v) | Raise e => Raise e end) /\
    (guarded op = true -> exists v, outcome env self op s = Ret v) /\
    (forall post_id e,
        op = ShareFacebookPost post_id ->
        answer = Raise e \/
        (exists v, answer = Ret v /\ contains "permalink_url" v = Raise e) ->
        outcome env self op s = Raise e).
Proof.
  intros env self op s answer. subst answer. split; [| split].
  - destruct op; cbn [passes_through]; try discriminate; intros _; cbn [outcome];
      unfold register_session, send_text_message, send_media, post_message_to_page,
        comment_on_post, reply_to_comment, reply_to_comment_with_attachment,
        update_comment, like_comment, get_user_info, get_page_details, get_page_posts,
        get_single_post, get_post_comments, get_reactions;
      rewrite send_rest_request_run; reflexivity.
  - destruct op; cbn [guarded]; try discriminate; intros _; cbn [outcome];
      unfold post_images_to_page, post_videos_to_page, post_media_to_page,
        list_all_pages, mtry;
      match goal with
      | |- context [match ?body s with _ => _ end] => destruct (body s) as [[v | e] s']
      end;
      eexists; reflexivity.
  - intros post_id e -> H. cbn [outcome]. unfold share_facebook_post, mbind at 1.
    rewrite send_rest_request_run.
    destruct H as [-> | (v & -> & Hv)]; [reflexivity |].
    unfold mbind, lift. rewrite Hv. reflexivity.
Qed.

Lemma operations_at_the_boundary_witness :
  outcome redirect_loop (example_config "T") (GetUserInfo "id,name") initial =
  Raise (RequestException "Expecting value: line 1 column 1 (char 0)" None) /\
  outcome redirect_loop (example_config "T")
          (PostImagesToPage ["https://cdn.example/1.png"%string] "Holiday") initial =
  Ret (Some (PDict [("ok", PBool false);
                    ("error", PStr "Expecting value: line 1 column 1 (char 0)")])).
Proof.
  split.
  - apply (proj1 (operations_at_the_boundary redirect_loop (example_config "T")
                    (GetUserInfo "id,name") initial)).
    reflexivity.
  - destruct (proj1 (proj2 (operations_at_the_boundary redirect_loop (example_config "T")
                (PostImagesToPage ["https://cdn.example/1.png"%string] "Holiday") initial))
                eq_refl) as (v & Hv).
    reflexivity.
Defined.

(** ** Content types *)

Lemma string_length_app (a b : string) :
  String.length (a ++ b) = String.length a + String.length b.
Proof. induction a as [| c a IH]; cbn; [reflexivity | rewrite IH; reflexivity]. Qed.

Lemma before_semicolon_app (m params : string) :
  before_semicolon (m ++ ";" ++ params) = before_semicolon m.
Proof.
  change (";" ++ params)%string with (String ";"%char params).
  induction m as [| c m IH]; cbn [String.append before_semicolon]; [reflexivity |].
  destruct (Ascii.eqb c ";"); [reflexivity | rewrite IH; reflexivity].
Qed.

Lemma before_semicolon_length (s : string) :
  String.length (before_semicolon s) <= String.length s.
Proof.
  induction s as [| c s IH]; cbn [before_semicolon String.length]; [lia |].
  destruct (Ascii.eqb c ";"); cbn [String.length]; lia.
Qed.

(** No allow-listed type carries a parameter. *)
Lemma allow_listed_plain (x : string) :
  In x (image_types ++ document_types ++ audio_types ++ video_types) ->
  before_semicolon x = x.
Proof.
  cbn [image_types document_types audio_types video_types app In].
  intros H. repeat (destruct H as [<- | H]; [reflexivity |]). contradiction.
Qed.

(** A Content-Type with a parameter ("image/png; charset=binary") is
    compared whole against the allow-lists by [get_mime_type], so it is
    classified "unknown" whatever its type, while [download_file] cuts it at
    the first ";" before it looks for an extension. *)
Theorem content_type_with_parameters :
  forall (env : environment) (r : response) (m params : string) (url : pyval) (s : state),
    content_type r = Some (m ++ ";" ++ params)%string ->
    net env (length (sent s)) = Responded r ->
    truthy url = true ->
    fst (get_mime_type env None url None s) =
    Ret (PDict [("file_type", PStr "unknown"); ("mime", PStr (m ++ ";" ++ params))]) /\
    probed_extension env r = guess_extension env (before_semicolon m).
Proof.
  intros env r m params url s Hct Hnet Hurl. split.
  - rewrite get_mime_type_run. cbn [opt_str truthy orb]. rewrite Hurl, Hnet. cbn [negb fst].
    rewrite Hct. f_equal. apply (category_classify (Some (m ++ ";" ++ params)%string)).
    cbn [category_of]. right; right; right; right. split; [reflexivity |].
    intros Hin.
    pose proof (allow_listed_plain _ Hin) as Hplain.
    rewrite before_semicolon_app in Hplain.
    pose proof (before_semicolon_length m) as Hlen.
    rewrite Hplain, !string_length_app in Hlen. cbn [String.length] in Hlen. lia.
  - unfold probed_extension. rewrite Hct.
    change (guess_extension env (before_semicolon (m ++ ";" ++ params)%string) =
            guess_extension env (before_semicolon m)).
    rewrite before_semicolon_app. reflexivity.
Qed.

Lemma content_type_with_parameters_witness :
  fst (get_mime_type (environment_of (fun _ => Responded png_with_charset)) None
         (PStr "https://cdn.example/a.png") None initial) =
  Ret (PDict [("file_type", PStr "unknown"); ("mime", PStr "image/png; charset=binary")]).
Proof.
  apply (proj1 (content_type_with_parameters
                  (environment_of (fun _ => Responded png_with_charset)) png_with_charset
                  "image/png" " charset=binary" (PStr "https://cdn.example/a.png") initial
                  eq_refl eq_refl eq_refl)).
Defined.

(** [get_mime_type] resolves its source in the order file path, URL,
    explicit type, and touches the network for the URL only: with a
    non-empty file path, or without a URL, it issues no call; otherwise it
    issues exactly one HEAD to the URL, whether the probe responds or
    raises. *)
Theorem get_mime_type_resolution_order :
  forall (env : environment) (file_path : option string) (url : pyval)
         (mime_type : option string) (s : state),
    (forall path,
        file_path = Some path -> path <> ""%string ->
        get_mime_type env file_path url mime_type s =
        (Ret (classify (guess_type env path)), s)) /\
    (truthy (opt_str file_path) = false -> truthy url = false ->
     get_mime_type env file_path url mime_type s = (Ret (classify mime_type), s)) /\
    (truthy (opt_str file_path) = false -> truthy url = true ->
     snd (get_mime_type env file_path url mime_type s) = logged (Head url) s).
Proof.
  intros env file_path url mime_type s. rewrite get_mime_type_run. split; [| split].
  - intros path -> Hpath. cbn [opt_str truthy unprobed_mime].
    destruct (String.eqb_spec path ""); [contradiction |]. reflexivity.
  - intros Hf Hu. rewrite Hf, Hu. cbn [orb negb]. unfold unprobed_mime.
    destruct file_path as [path |]; [| reflexivity].
    cbn [opt_str] in Hf. rewrite Hf. reflexivity.
  - intros Hf Hu. rewrite Hf, Hu. reflexivity.
Qed.

Lemma get_mime_type_resolution_order_witness :
  get_mime_type (environment_of (fun _ => Responded png_page)) (Some "report.pdf"%string)
                (PStr "https://cdn.example/a.png") (Some "audio/wav"%string) initial
  = (Ret (PDict [("file_type", PStr "unknown"); ("mime", PNone)]), initial).
Proof.
  apply (proj1 (get_mime_type_resolution_order
                  (environment_of (fun _ => Responded png_page)) (Some "report.pdf"%string)
                  (PStr "https://cdn.example/a.png") (Some "audio/wav"%string) initial)
               "report.pdf"%string eq_refl).
  discriminate.
Defined.

(** ** Pagination: what ends the loop and what does not *)

Section Listing.

Variable env : environment.
Variable self : config.

Lemma list_all_pages_loop_step (fuel : nat) (endpoint : string) (params : pyval)
    (all_pages : list pyval) (s : state) :
  list_all_pages_loop env self (S fuel) (PStr endpoint) params all_pages s =
  let s' := logged (rest_call self "GET" endpoint params PNone PNone PNone) s in
  match rest_result self (net env (length (sent s))) with
  | Raise e => (Raise e, s')
  | Ret response =>
      match read_page response with
      | Raise e => (Raise e, s')
      | Ret None => (Ret (Some (PList [])), s')
      | Ret (Some (items, next_page)) =>
          if truthy next_page
          then list_all_pages_loop env self fuel next_page (PDict [])
                                   (all_pages ++ items) s'
          else (Ret (Some (PList (all_pages ++ items))), s')
      end
  end.
Proof.
  cbn [list_all_pages_loop send_rest_request_to]. unfold mbind at 1.
  rewrite send_rest_request_run. cbn zeta.
  destruct (rest_result self (net env (length (sent s)))) as [response | e];
    [| reflexivity].
  unfold read_page, mbind, lift.
  destruct (contains "error" response) as [[|] | e]; cbn [rbind]; try reflexivity.
  destruct (get response "data" (PList [])) as [data | e]; cbn [rbind]; [| reflexivity].
  destruct (iterate data) as [items | e]; cbn [rbind]; [| reflexivity].
  destruct (get response "paging" (PDict [])) as [paging | e]; cbn [rbind];
    [| reflexivity].
  destruct (get paging "next" PNone) as [next_page | e]; cbn [rbind]; [| reflexivity].
  destruct (truthy next_page); reflexivity.
Qed.

Lemma linked_read_page (p : page) :
  linked p ->
  exists url, url <> ""%string /\ next p = PStr url /\
              read_page (body p) = Ret (Some (items p, PStr url)).
Proof.
  intros ((Herr & Hdata & paging & Hpaging & Hnext) & url & Hurl & Hne).
  exists url. split; [exact Hne |]. split; [exact Hurl |].
  unfold read_page. rewrite Herr. cbn [rbind]. rewrite Hdata. cbn [rbind iterate].
  rewrite Hpaging. cbn [rbind]. rewrite Hnext, Hurl. reflexivity.
Qed.

Lemma truthy_url (url : string) : url <> ""%string -> truthy (PStr url) = true.
Proof.
  intros H. cbn [truthy]. destruct (String.eqb_spec url ""); [contradiction | reflexivity].
Qed.

Lemma list_all_pages_loop_endless (k : nat) :
  (forall n, k <= n -> exists p, linked p /\ rest_result self (net env n) = Ret (body p)) ->
  forall (fuel : nat) (endpoint : string) (params : pyval) (all_pages : list pyval)
         (s : state),
    k <= length (sent s) ->
    fst (list_all_pages_loop env self fuel (PStr endpoint) params all_pages s) = Ret None /\
    length (sent (snd (list_all_pages_loop env self fuel (PStr endpoint) params
                                           all_pages s))) =
    length (sent s) + fuel.
Proof.
  intros Hnet. induction fuel as [| fuel IH]; intros endpoint params all_pages s Hk.
  - cbn. split; [reflexivity | lia].
  - rewrite list_all_pages_loop_step. cbn zeta.
    destruct (Hnet (length (sent s)) Hk) as (p & Hp & Hbody). rewrite Hbody.
    destruct (linked_read_page p Hp) as (url & Hurl & _ & Hread). rewrite Hread.
    rewrite (truthy_url url Hurl).
    destruct (IH url (PDict []) (all_pages ++ items p)
                 (logged (rest_call self "GET" endpoint params PNone PNone PNone) s))
      as [Hfst Hlen].
    + rewrite logged_length. lia.
    + split; [exact Hfst |]. rewrite Hlen, logged_length. lia.
Qed.

Lemma list_all_pages_loop_breaks (pages : list page) :
  forall (answers : list transport) (final : transport) (response : pyval) (e : exn)
         (fuel : nat) (endpoint : string) (params : pyval) (all_pages : list pyval)
         (s : state),
    scripted env (length (sent s)) (answers ++ [final]) ->
    returned self answers (map body pages) ->
    Forall linked pages ->
    rest_result self final = Ret response ->
    breaks_listing response e ->
    S (length pages) < fuel ->
    list_all_pages_loop env self fuel (PStr endpoint) params all_pages s =
    (Raise e,
     logged_all (rest_call self "GET" endpoint params PNone PNone PNone
                   :: map (fun p => follow_up self (next p)) pages) s).
Proof.
  induction pages as [| p pages IH];
    intros answers final response e fuel endpoint params all_pages s
           Hscript Hret Hlinked Hfinal Hbreaks Hfuel.
  - inversion Hret; subst. cbn [app] in Hscript. apply scripted_head in Hscript.
    destruct fuel as [| [| fuel]]; [cbn in Hfuel; lia | cbn in Hfuel; lia |].
    rewrite list_all_pages_loop_step. cbn zeta. rewrite Hscript, Hfinal.
    destruct Hbreaks as [-> | (items & next_page & -> & Htruthy & Hnot & ->)];
      [reflexivity |].
    rewrite Htruthy. cbn [list_all_pages_loop send_rest_request_to].
    destruct next_page; try reflexivity.
    exfalso. apply (Hnot s0). reflexivity.
  - inversion Hret as [| t b answers' bodies' Ht Hrest]; subst.
    inversion Hlinked as [| ? ? Hp Hlinked']; subst.
    cbn [app] in Hscript.
    pose proof (scripted_head _ _ _ _ Hscript) as Hhead.
    apply scripted_tail in Hscript.
    destruct fuel as [| fuel]; [cbn in Hfuel; lia |].
    rewrite list_all_pages_loop_step. cbn zeta. rewrite Hhead, Ht.
    destruct (linked_read_page p Hp) as (url & Hurl & Hnext & Hread). rewrite Hread.
    rewrite (truthy_url url Hurl).
    rewrite (IH answers' final response e fuel url (PDict []) (all_pages ++ items p)
               (logged (rest_call self "GET" endpoint params PNone PNone PNone) s)).
    + rewrite logged_all_cons. cbn [map]. unfold follow_up at 2.
      rewrite Hnext. reflexivity.
    + rewrite logged_length. exact Hscript.
    + exact Hrest.
    + exact Hlinked'.
    + exact Hfinal.
    + exact Hbreaks.
    + cbn [length] in Hfuel. lia.
Qed.

End Listing.

(** [list_all_pages] puts no bound on the number of pages.  Against a server
    whose every answer is a page linked to a further one, the loop is still
    running after any number of iterations, and has by then issued exactly
    one request per iteration. *)
Theorem list_all_pages_unbounded :
  forall (env : environment) (self : config) (limit : Z) (s : state),
    (forall n, length (sent s) <= n ->
               exists p, linked p /\ rest_result self (net env n) = Ret (body p)) ->
    forall fuel : nat,
      fst (list_all_pages env self fuel limit s) = Ret None /\
      length (sent (snd (list_all_pages env self fuel limit s))) =
      length (sent s) + fuel.
Proof.
  intros env self limit s Hnet fuel.
  unfold list_all_pages, mtry.
  destruct (list_all_pages_loop_endless env self (length (sent s)) Hnet fuel
              "me/accounts"
              (PDict [("access_token", page_token self); ("limit", PInt limit)])
              [] s (Nat.le_refl _)) as [Hfst Hlen].
  destruct (list_all_pages_loop env self fuel (PStr "me/accounts")
              (PDict [("access_token", page_token self); ("limit", PInt limit)]) [] s)
    as [r s'] eqn:Hrun.
  cbn [fst snd] in Hfst, Hlen. subst r. split; [reflexivity | exact Hlen].
Qed.

Lemma endless_linked :
  forall n, length (sent initial) <= n ->
            exists p, linked p /\
                      rest_result (example_config "T") (net endless n) = Ret (body p).
Proof.
  intros n _. exists first_page. split; [| reflexivity].
  split.
  - split; [reflexivity |]. split; [reflexivity |]. eexists. split; reflexivity.
  - eexists. split; [reflexivity | discriminate].
Defined.

Lemma list_all_pages_unbounded_witness :
  fst (list_all_pages endless (example_config "T") 40 25 initial) = Ret None /\
  length (sent (snd (list_all_pages endless (example_config "T") 40 25 initial))) = 40.
Proof.
  exact (list_all_pages_unbounded endless (example_config "T") 25 initial
           endless_linked 40).
Defined.

(** When a page of the listing cannot be read (its "data" is not iterable,
    its "paging" is not an object, the body is not an object), or when its
    [paging.next] is a non-empty value that is not a string,
    [list_all_pages] returns [{"ok": False, "error": str(e)}]: the records
    of the pages read before are dropped, and no request follows. *)
Theorem list_all_pages_drops_records_on_exception :
  forall (env : environment) (self : config) (limit : Z) (s : state)
         (pages : list page) (answers : list transport) (final : transport)
         (response : pyval) (e : exn) (fuel : nat),
    scripted env (length (sent s)) (answers ++ [final]) ->
    returned self answers (map body pages) ->
    Forall linked pages ->
    rest_result self final = Ret response ->
    breaks_listing response e ->
    S (length pages) < fuel ->
    list_all_pages env self fuel limit s =
    (Ret (Some (internal_error e)),
     logged_all
       (rest_call self "GET" "me/accounts"
                  (PDict [("access_token", PStr (access_token self)); ("limit", PInt limit)])
                  PNone PNone PNone
        :: map (fun p => follow_up self (next p)) pages) s).
Proof.
  intros env self limit s pages answers final response e fuel
         Hscript Hret Hlinked Hfinal Hbreaks Hfuel.
  unfold list_all_pages, mtry.
  rewrite (list_all_pages_loop_breaks env self pages answers final response e fuel
             "me/accounts" _ [] s Hscript Hret Hlinked Hfinal Hbreaks Hfuel).
  reflexivity.
Qed.

Lemma list_all_pages_drops_records_on_exception_witness :
  fst (list_all_pages
         (script [ok_json (body first_page); ok_json page_without_paging])
         (example_config "T") 3 100 initial)
  = Ret (Some (PDict [("ok", PBool false);
                      ("error", PStr "'NoneType' object has no attribute 'get'")])).
Proof.
  rewrite (list_all_pages_drops_records_on_exception
             (script [ok_json (body first_page); ok_json page_without_paging])
             (example_config "T") 100 initial [first_page]
             [ok_json (body first_page)] (ok_json page_without_paging)
             page_without_paging
             (AttributeError "'NoneType' object has no attribute 'get'") 3
             (script_scripted _)
             first_page_returned
             (Forall_cons _ first_page_linked (Forall_nil _))
             eq_refl (or_introl eq_refl) (le_n 3)).
  reflexivity.
Defined.

(** ** Batches: an exception ends the batch *)

Section Aborts.

Variable env : environment.
Variable self : config.

Lemma collect_id_raises (response : pyval) (ids : list pyval) (e : exn) :
  collect_id response [] = Raise e -> collect_id response ids = Raise e.
Proof.
  unfold collect_id.
  destruct (contains "error" response) as [[|] | e']; cbn [rbind];
    [discriminate | | exact (fun H => H)].
  destruct (get response "id" PNone); cbn [rbind]; [discriminate | exact (fun H => H)].
Qed.

Lemma logged_all_length (cs : list call) (s : state) :
  length (sent (logged_all cs s)) = length (sent s) + length cs.
Proof. unfold logged_all. cbn [sent]. apply length_app. Qed.

Lemma logged_all_snoc (cs : list call) (c : call) (s : state) :
  logged c (logged_all cs s) = logged_all (cs ++ [c]) s.
Proof. unfold logged, logged_all. cbn. rewrite <- app_assoc. reflexivity. Qed.

Lemma returned_length (answers : list transport) (responses : list pyval) :
  returned self answers responses -> length answers = length responses.
Proof. intros H. induction H; cbn; congruence. Qed.

Lemma upload_images_app (done rest : list string) :
  forall (ids : list pyval) (s : state),
    upload_images env self (done ++ rest) ids s =
    match upload_images env self done ids s with
    | (Ret ids', s') => upload_images env self rest ids' s'
    | (Raise e, s') => (Raise e, s')
    end.
Proof.
  induction done as [| image_url done IH]; intros ids s; [reflexivity |].
  cbn [app upload_images]. unfold mbind, lift.
  destruct (send_rest_request env self "POST" (page_id self ++ "/photos")
              (image_params self (PStr image_url)) PNone PNone PNone s)
    as [[response | e] s1]; [| reflexivity].
  destruct (collect_id response ids) as [ids' | e]; [apply IH | reflexivity].
Qed.

Lemma upload_videos_app (title : string) (done rest : list string) :
  forall (ids : list pyval) (s : state),
    upload_videos env self title (done ++ rest) ids s =
    match upload_videos env self title done ids s with
    | (Ret ids', s') => upload_videos env self title rest ids' s'
    | (Raise e, s') => (Raise e, s')
    end.
Proof.
  induction done as [| video_url done IH]; intros ids s; [reflexivity |].
  cbn [app upload_videos]. unfold mbind, lift.
  destruct (send_rest_request env self "POST" (page_id self ++ "/videos")
              (PDict [("access_token", page_token self); ("title", PStr title);
                      ("file_url", PStr video_url)]) PNone PNone PNone s)
    as [[response | e] s1]; [| reflexivity].
  destruct (collect_id response ids) as [ids' | e]; [apply IH | reflexivity].
Qed.

Lemma scripted_after (k : nat) (answers : list transport) (bad : transport) :
  scripted env k (answers ++ [bad]) -> net env (k + length answers) = bad.
Proof.
  intros H. apply scripted_app in H. destruct H as [_ H].
  exact (scripted_head _ _ _ _ H).
Qed.

Lemma upload_images_aborts (done : list string) (failing : string) (rest : list string)
    (answers : list transport) (responses : list pyval) (bad : transport) (e : exn)
    (s : state) :
  scripted env (length (sent s)) (answers ++ [bad]) ->
  returned self answers responses ->
  length responses = length done ->
  Forall is_dict responses ->
  upload_raises self bad e ->
  upload_images env self (done ++ failing :: rest) [] s =
  (Raise e, logged_all (map (photo_upload self) (done ++ [failing])) s).
Proof.
  intros Hscript Hret Hlen Hdict Hbad.
  rewrite upload_images_app.
  rewrite (upload_images_run env self done answers responses [] s
             (proj1 (scripted_app _ _ _ _ Hscript)) Hret Hlen Hdict).
  cbn [upload_images]. unfold mbind at 1.
  rewrite send_rest_request_run, logged_all_length, length_map.
  rewrite <- Hlen, <- (returned_length _ _ Hret), (scripted_after _ _ _ Hscript).
  rewrite map_app. cbn [map].
  destruct Hbad as [-> | (response & -> & Hcollect)].
  - rewrite <- logged_all_snoc. reflexivity.
  - unfold mbind at 1. unfold lift at 1.
    rewrite (collect_id_raises _ _ _ Hcollect), <- logged_all_snoc. reflexivity.
Qed.

Lemma upload_videos_aborts (title : string) (done : list string) (failing : string)
    (rest : list string) (answers : list transport) (responses : list pyval)
    (bad : transport) (e : exn) (s : state) :
  scripted env (length (sent s)) (answers ++ [bad]) ->
  returned self answers responses ->
  length responses = length done ->
  Forall is_dict responses ->
  upload_raises self bad e ->
  upload_videos env self title (done ++ failing :: rest) [] s =
  (Raise e, logged_all (map (video_upload self title) (done ++ [failing])) s).
Proof.
  intros Hscript Hret Hlen Hdict Hbad.
  rewrite upload_videos_app.
  rewrite (upload_videos_run env self title done answers responses [] s
             (proj1 (scripted_app _ _ _ _ Hscript)) Hret Hlen Hdict).
  cbn [upload_videos]. unfold mbind at 1.
  rewrite send_rest_request_run, logged_all_length, length_map.
  rewrite <- Hlen, <- (returned_length _ _ Hret), (scripted_after _ _ _ Hscript).
  rewrite map_app. cbn [map].
  destruct Hbad as [-> | (response & -> & Hcollect)].
  - rewrite <- logged_all_snoc. reflexivity.
  - unfold mbind at 1. unfold lift at 1.
    rewrite (collect_id_raises _ _ _ Hcollect), <- logged_all_snoc. reflexivity.
Qed.

End Aborts.

(** An upload that raises (an exception that [send_rest_request] lets
    through, or a response that is not an object, on which the read of its
    "id" fails) ends the image batch and the video batch: the URLs after it
    are not uploaded, no feed post is issued for the media already uploaded,
    and the result is [{"ok": False, "error": str(e)}]. *)
Theorem batch_aborts_on_exception :
  forall (env : environment) (self : config) (title caption : string)
         (done : list string) (failing : string) (rest : list string)
         (s : state) (answers : list transport) (responses : list pyval)
         (bad : transport) (e : exn),
    scripted env (length (sent s)) (answers ++ [bad]) ->
    returned self answers responses ->
    length responses = length done ->
    Forall is_dict responses ->
    upload_raises self bad e ->
    post_images_to_page env self (done ++ failing :: rest) caption s =
    (Ret (PDict [("ok", PBool false); ("error", PStr (exn_str e))]),
     logged_all (map (photo_upload self) (done ++ [failing])) s) /\
    post_videos_to_page env self title caption (done ++ failing :: rest) s =
    (Ret (PDict [("ok", PBool false); ("error", PStr (exn_str e))]),
     logged_all (map (video_upload self title) (done ++ [failing])) s).
Proof.
  intros env self title caption done failing rest s answers responses bad e
         Hscript Hret Hlen Hdict Hbad.
  split.
  - unfold post_images_to_page, mtry, mbind.
    rewrite (upload_images_aborts env self done failing rest answers responses bad e s)
      by assumption.
    reflexivity.
  - unfold post_videos_to_page, mtry, mbind.
    rewrite (upload_videos_aborts env self title done failing rest answers responses
               bad e s) by assumption.
    reflexivity.
Qed.

Lemma array_answer_scripted :
  scripted (script array_answer) 0 ([upload_ok "m1"] ++ [ok_json (PList [])]).
Proof.
  apply (proj1 (scripted_app (script array_answer) 0
                  [upload_ok "m1"; ok_json (PList [])] [upload_ok "m3"; upload_ok "post1"]
                  (script_scripted array_answer))).
Defined.

Lemma array_answer_returned :
  returned (example_config "T") [upload_ok "m1"] [PDict [("id", PStr "m1")]].
Proof. repeat constructor. Defined.

Lemma batch_aborts_on_exception_witness :
  post_images_to_page (script array_answer) (example_config "T")
    (["https://cdn.example/1.png"] ++ "https://cdn.example/2.png"
       :: ["https://cdn.example/3.png"])
    "Holiday" initial
  = (Ret (PDict [("ok", PBool false);
                 ("error", PStr "'list' object has no attribute 'get'")]),
     logged_all
       (map (photo_upload (example_config "T"))
            ["https://cdn.example/1.png"; "https://cdn.example/2.png"])
       initial).
Proof.
  apply (proj1 (batch_aborts_on_exception
                  (script array_answer) (example_config "T") "Clip" "Holiday"
                  ["https://cdn.example/1.png"] "https://cdn.example/2.png"
                  ["https://cdn.example/3.png"] initial
                  [upload_ok "m1"] [PDict [("id", PStr "m1")]] (ok_json (PList []))
                  (AttributeError "'list' object has no attribute 'get'")
                  array_answer_scripted array_answer_returned eq_refl
                  (Forall_cons _ (ex_intro _ _ eq_refl) (Forall_nil _))
                  (or_intror (ex_intro _ (PList []) (conj eq_refl eq_refl))))).
Defined.

(** ** Mixed batches *)

Section Mixed.

Variable env : environment.
Variable self : config.

Lemma upload_media_uploaded media answers calls id (media_ids : list pyval) (s : state) :
  uploaded self media answers calls id ->
  scripted env (length (sent s)) answers ->
  upload_media env self media media_ids s = (Ret (media_ids ++ [id]), logged_all calls s).
Proof.
  intros H Hscript. unfold upload_media.
  destruct H as [d r file_type t response Hurl Hcat Hkind Ht Herr].
  unfold mbind at 1; unfold lift at 1; rewrite get_dict;
    unfold mbind at 1; rewrite get_mime_type_run; cbn [opt_str truthy orb]; rewrite Hurl;
    cbn [negb].
  rewrite (scripted_head _ _ _ _ Hscript), (category_classify _ _ Hcat).
  apply scripted_tail, scripted_head in Hscript.
  unfold mbind at 1. unfold lift at 1.
  cbn [truthy get dict_get lookup String.eqb Ascii.eqb Bool.eqb].
  unfold upload_target, media_upload. cbn [eq_str].
  destruct Hkind as [-> | ->]; cbn [String.eqb Ascii.eqb Bool.eqb];
    unfold mbind; rewrite send_rest_request_run, logged_length, Hscript, Ht;
    unfold lift, collect_id; cbn [contains]; rewrite Herr; cbn [rbind get];
    rewrite <- logged_all_cons, <- (logged_all_cons _ []), logged_all_nil; reflexivity.
Qed.

Lemma handled_lengths media_urls answers calls ids :
  handled self media_urls answers calls ids -> length calls = length answers.
Proof.
  induction 1 as [| media media_urls answers answers' calls calls' ids Hmedia Hrest IH
                  | media media_urls answers answers' calls calls' id ids Hmedia Hrest IH];
    [reflexivity | |]; rewrite !length_app, IH; f_equal.
  - destruct Hmedia as [[] | []]; reflexivity.
  - destruct Hmedia; reflexivity.
Qed.

Lemma upload_medias_handled media_urls answers calls ids :
  handled self media_urls answers calls ids ->
  forall (media_ids : list pyval) (s : state),
    scripted env (length (sent s)) answers ->
    upload_medias env self media_urls media_ids s =
    (Ret (media_ids ++ ids), logged_all calls s).
Proof.
  induction 1 as [| media media_urls answers answers' calls calls' ids Hmedia Hrest IH
                  | media media_urls answers answers' calls calls' id ids Hmedia Hrest IH];
    intros media_ids s Hscript.
  - cbn. rewrite logged_all_nil, app_nil_r. reflexivity.
  - apply scripted_app in Hscript. destruct Hscript as [Hhere Hthen].
    cbn [upload_medias]. unfold mbind.
    assert (Hstep : upload_media env self media media_ids s =
                    (Ret media_ids, logged_all calls s)).
    { destruct Hmedia;
        [apply upload_media_skipped with (answers := answers)
        | apply upload_media_failed with (answers := answers)];
        assumption. }
    rewrite Hstep, IH.
    + rewrite logged_all_app. reflexivity.
    + assert (Hlen : length calls = length answers).
      { destruct Hmedia as [[] | []]; reflexivity. }
      unfold logged_all. cbn [sent]. rewrite length_app, Hlen. exact Hthen.
  - apply scripted_app in Hscript. destruct Hscript as [Hhere Hthen].
    cbn [upload_medias]. unfold mbind.
    rewrite (upload_media_uploaded media answers calls id media_ids s Hmedia Hhere), IH.
    + rewrite logged_all_app, <- app_assoc. reflexivity.
    + assert (Hlen : length calls = length answers) by (destruct Hmedia; reflexivity).
      unfold logged_all. cbn [sent]. rewrite length_app, Hlen. exact Hthen.
Qed.

Lemma upload_medias_app (done rest : list pyval) :
  forall (ids : list pyval) (s : state),
    upload_medias env self (done ++ rest) ids s =
    match upload_medias env self done ids s with
    | (Ret ids', s') => upload_medias env self rest ids' s'
    | (Raise e, s') => (Raise e, s')
    end.
Proof.
  induction done as [| media done IH]; intros ids s; [reflexivity |].
  cbn [app upload_medias]. unfold mbind.
  destruct (upload_media env self media ids s) as [[ids' | e] s1];
    [apply IH | reflexivity].
Qed.

End Mixed.

(** [post_media_to_page] handles a batch that mixes types.  Every entry with
    a URL is probed; an image goes to [/photos] unpublished and a video to
    [/videos] by [file_url], without a title; the ids of the uploads whose
    response has no "error" key are collected in batch order, entries of
    other types and failed uploads leaving no trace.  With at least one id
    the feed post is issued once, after all the uploads, and its result is
    returned.  An entry that is not an object ends the batch with
    [{"ok": False, "error": str(e)}] and no feed post, whatever was uploaded
    before it. *)
Theorem post_media_to_page_posts_uploaded :
  forall (env : environment) (self : config) (caption : string) (s : state)
         (media_urls : list pyval) (answers : list transport) (calls : list call)
         (ids : list pyval),
    handled self media_urls answers calls ids ->
    scripted env (length (sent s)) answers ->
    (ids <> [] ->
     post_media_to_page env self caption media_urls s =
     (Ret (feed_result self (net env (length (sent s) + length answers))),
      logged_all (calls ++ [feed_post self caption ids]) s)) /\
    (forall media media_rest e,
        get media "url" PNone = Raise e ->
        post_media_to_page env self caption (media_urls ++ media :: media_rest) s =
        (Ret (PDict [("ok", PBool false); ("error", PStr (exn_str e))]),
         logged_all calls s)).
Proof.
  intros env self caption s media_urls answers calls ids Hall Hscript. split.
  - intros Hids. unfold post_media_to_page, mtry, mbind.
    rewrite (upload_medias_handled env self media_urls answers calls ids Hall [] s Hscript).
    cbn [app]. destruct ids as [| i ids]; [contradiction |].
    cbn [truthy negb]. rewrite post_to_feed_run.
    unfold logged_all at 1. cbn [sent].
    rewrite length_app, (handled_lengths self _ _ _ _ Hall).
    unfold feed_result.
    destruct (rest_result self (net env (length (sent s) + length answers)));
      unfold logged, logged_all, mret, internal_error; cbn [sent stored draws];
      rewrite <- app_assoc; reflexivity.
  - intros media media_rest e Hget.
    unfold post_media_to_page, mtry. unfold mbind at 1.
    rewrite upload_medias_app,
      (upload_medias_handled env self media_urls answers calls ids Hall [] s Hscript).
    cbn [upload_medias]. unfold mbind at 1. unfold upload_media.
    unfold mbind at 1. unfold lift at 1. rewrite Hget. reflexivity.
Qed.

Lemma launch_batch_handled :
  handled (example_config "T") launch_batch launch_answers launch_calls
          [PStr "m1"; PStr "v1"].
Proof.
  apply (handled_without_id (example_config "T") _ _ [Responded pdf_page] _
                            [Head (PStr "https://cdn.example/terms.pdf")]).
  { left. apply (skipped_other_type [("url", PStr "https://cdn.example/terms.pdf")]
                                    pdf_page "document"); try reflexivity;
      try discriminate.
    right; left. split; [reflexivity |]. left. reflexivity. }
  apply (handled_with_id (example_config "T") _ _ [Responded png_page; upload_ok "m1"] _
                         [Head (PStr "https://cdn.example/a.png");
                          media_upload (example_config "T") "image"
                                       (PStr "https://cdn.example/a.png")]).
  { apply (uploaded_media (example_config "T") [("url", PStr "https://cdn.example/a.png")]
                          png_page "image" (upload_ok "m1") [("id", PStr "m1")]);
      try reflexivity.
    - left. split; [reflexivity |]. right; left. reflexivity.
    - left. reflexivity. }
  apply (handled_with_id (example_config "T") _ _ [Responded mp4_page; upload_ok "v1"] []
                         [Head (PStr "https://cdn.example/clip.mp4");
                          media_upload (example_config "T") "video"
                                       (PStr "https://cdn.example/clip.mp4")] []).
  { apply (uploaded_media (example_config "T")
                          [("url", PStr "https://cdn.example/clip.mp4")]
                          mp4_page "video" (upload_ok "v1") [("id", PStr "v1")]);
      try reflexivity.
    - right; right; right; left. split; [reflexivity |]. left. reflexivity.
    - right. reflexivity. }
  constructor.
Defined.

Lemma launch_answers_scripted :
  scripted (script (launch_answers ++ [upload_ok "post1"])) 0 launch_answers.
Proof.
  apply (proj1 (scripted_app (script (launch_answers ++ [upload_ok "post1"])) 0
                  launch_answers [upload_ok "post1"]
                  (script_scripted (launch_answers ++ [upload_ok "post1"])))).
Defined.

Lemma post_media_to_page_posts_uploaded_witness :
  post_media_to_page (script (launch_answers ++ [upload_ok "post1"]))
                     (example_config "T") "Launch" launch_batch initial
  = (Ret (PDict [("id", PStr "post1")]),
     logged_all
       (launch_calls ++ [feed_post (example_config "T") "Launch" [PStr "m1"; PStr "v1"]])
       initial).
Proof.
  apply (proj1 (post_media_to_page_posts_uploaded
                  (script (launch_answers ++ [upload_ok "post1"]))
                  (example_config "T") "Launch" initial launch_batch launch_answers
                  launch_calls [PStr "m1"; PStr "v1"]
                  launch_batch_handled launch_answers_scripted)).
  discriminate.
Defined.

(** ** Downloads *)

Lemma concat_cons (h : string) (t : list string) :
  String.concat "" (h :: t) = (h ++ String.concat "" t)%string.
Proof.
  destruct t as [| h' t]; cbn [String.concat String.append]; [| reflexivity].
  induction h as [| c h IH]; cbn [String.append]; [reflexivity | rewrite <- IH; reflexivity].
Qed.

Lemma concat_nonempty (l : list string) :
  String.concat "" (filter nonempty l) = String.concat "" l.
Proof.
  induction l as [| h t IH]; [reflexivity |].
  cbn [filter]. unfold nonempty at 1.
  destruct (String.eqb_spec h ""%string) as [-> | _]; cbn [negb].
  - rewrite (concat_cons ""%string t). exact IH.
  - rewrite !concat_cons, IH. reflexivity.
Qed.

(** [download_file] after a probe that gives an extension: the status of
    the probe is not looked at; the name is drawn before the GET, so a draw
    is spent whatever the GET answers.  A GET whose status is not 200 gives
    null and stores nothing.  On a 200 the chunks are concatenated (the
    empty ones add nothing) and stored under "fb/" + name + extension, and
    the URL of the stored file is returned; when the store saves the file but
    fails to give its URL, the result is null and the file stays stored. *)
Theorem download_file_stores_and_links :
  forall (env : environment) (url : string) (s : state) (r r' : response) (ext : string),
    net env (length (sent s)) = Responded r ->
    probed_extension env r = Some ext ->
    ext <> ""%string ->
    net env (S (length (sent s))) = Responded r' ->
    let path := output_path env s ext in
    let requested := (sent s ++ [Head (PStr url); Get url])%list in
    (status_code r' <> 200%Z ->
     download_file env url s =
     (Ret PNone, mkState requested (stored s) (S (draws s)))) /\
    (status_code r' = 200%Z ->
     chunk_fault r' = None ->
     save_file env path (String.concat "" (chunks r')) = None ->
     download_file env url s =
     (match get_file_url env path with
      | Ret link => Ret link
      | Raise _ => Ret PNone
      end,
      mkState requested (stored s ++ [(path, String.concat "" (chunks r'))])%list
              (S (draws s)))).
Proof.
  intros env url s r r' ext Hr Hext Hne Hr' path requested. subst path requested.
  rewrite download_file_run, Hr, Hext.
  assert (Ht : truthy (PStr ext) = true).
  { cbn [truthy]. destruct (String.eqb_spec ext ""); [contradiction | reflexivity]. }
  rewrite Ht. unfold mtry, fetch_and_store, mbind, draw, perform, logged.
  cbn [sent stored draws]. rewrite length_app, Nat.add_1_r, Hr'. split.
  - intros Hstatus. apply Z.eqb_neq in Hstatus. rewrite Hstatus.
    unfold mret. rewrite <- app_assoc. reflexivity.
  - intros Hstatus Hfault Hsave. rewrite Hstatus. cbn [Z.eqb Pos.eqb].
    unfold lift, read_chunks, save, output_path in *. rewrite Hfault, concat_nonempty.
    cbn [sent stored draws]. rewrite Hsave. cbn [sent stored draws].
    rewrite <- app_assoc.
    destruct (get_file_url env _); reflexivity.
Qed.

Lemma download_file_stores_and_links_witness :
  download_file file_server "https://cdn.example/a.png" initial
  = (Ret PNone,
     mkState [Head (PStr "https://cdn.example/a.png"); Get "https://cdn.example/a.png"]
             [("fb/a1b2c3d4e5.png"%string, "PNGDATA"%string)] 1).
Proof.
  apply (proj2 (download_file_stores_and_links
                  file_server "https://cdn.example/a.png" initial
                  png_with_charset png_download ".png"
                  eq_refl eq_refl ltac:(discriminate) eq_refl)
               eq_refl eq_refl eq_refl).
Defined.

(** * Credentials *)

(** ** The first call of a computation *)

Section Begins.

Context {A B : Type}.
Variable P : call -> Prop.



End Begins.



Section First.

Variable env : environment.
Variable self : config.














End First.

(** ** What every call attaches *)






(** ** The chain of a listing *)


(** Two pages: the second request has empty parameters. *)
Lemma list_all_pages_second_request :
  sent (snd (list_all_pages (script [ok_json (body first_page); ok_json (body last_page)])
                            (example_config "T") 2 100 initial))
  = [rest_call (example_config "T") "GET" "me/accounts"
               (PDict [("access_token", PStr "PAGETOKEN"); ("limit", PInt 100)])
               PNone PNone PNone;
     rest_call (example_config "T") "GET" "https://graph.facebook.com/p2"
               (PDict []) PNone PNone PNone].
Proof. reflexivity. Qed.
